(** * LightField spectrometer facade: a shallow embedding of [spectrometer.py]

    The Python class [Spectrometer] is a thin facade over the Princeton
    Instruments LightField automation SDK.  Its methods read and write the
    four fields of [self], call methods of the vendor's [Experiment] object
    and print one line per attempted write.

    The embedding keeps these three things apart:
    - the facade's own fields ([Spectrometer]), which hold references;
    - the vendor's experiment object ([Experiment]), reached through the
      reference stored in [self.experiment];
    - a chronological [trace] of what the outside world can observe: the
      vendor methods that were called and the lines that were printed.

    Every method is a computation in a small state-and-exception monad over
    [World]. *)

From Stdlib Require Import ZArith String List Bool Ascii.
From Stdlib Require Import SpecFloat.
From stdpp Require Import gmap strings list fin_maps.

Import ListNotations.
Local Open Scope string_scope.
Local Open Scope list_scope.
Local Open Scope Z_scope.

(** ** Python values *)

(** Binary64, the representation of a Python [float]. *)
Definition float64 := spec_float.

(** The values the facade passes to [SetValue]: [None], [bool], [int],
    [float] and [str]. *)
Inductive PyValue :=
| PyNone
| PyBool (b : bool)
| PyInt (z : Z)
| PyFloat (f : float64)
| PyStr (s : string).

(** A numeric argument (annotated [int] or [float] in the source). *)
Inductive PyNum :=
| NInt (z : Z)
| NFloat (f : float64).

(** Exceptions.  Only subclasses of Python's [Exception] occur: the ones the
    interpreter raises on an attribute lookup or a conversion, and the .NET
    exceptions of the vendor calls, which pythonnet surfaces as [Exception]s. *)
Inductive exn :=
| AttributeError (type_name attr : string)
| OverflowError (msg : string)
| TypeError (msg : string)
| DotNetException (msg : string).

(** ** Setting keys

    The keys are constants of the vendor classes [SpectrometerSettings],
    [CameraSettings] and [ExperimentSettings].  The source names eight of
    them; [set_value] accepts any key, hence [OtherSetting]. *)
Inductive Setting :=
| GratingCenterWavelength                   (* SpectrometerSettings *)
| Grating                                   (* SpectrometerSettings *)
| ShutterTimingExposureTime                 (* CameraSettings *)
| ReadoutControlRegionsOfInterestSelection  (* CameraSettings *)
| FileNameGenerationBaseFileName            (* ExperimentSettings *)
| FileNameGenerationAttachIncrement         (* ExperimentSettings *)
| FileNameGenerationAttachDate              (* ExperimentSettings *)
| FileNameGenerationAttachTime              (* ExperimentSettings *)
| OtherSetting (name : string).

#[global] Instance Setting_eq_dec : EqDecision Setting.
Proof. solve_decision. Defined.

Definition Setting_code (k : Setting) : nat + string :=
  match k with
  | GratingCenterWavelength => inl 0%nat
  | Grating => inl 1%nat
  | ShutterTimingExposureTime => inl 2%nat
  | ReadoutControlRegionsOfInterestSelection => inl 3%nat
  | FileNameGenerationBaseFileName => inl 4%nat
  | FileNameGenerationAttachIncrement => inl 5%nat
  | FileNameGenerationAttachDate => inl 6%nat
  | FileNameGenerationAttachTime => inl 7%nat
  | OtherSetting name => inr name
  end.

Definition Setting_decode (c : nat + string) : Setting :=
  match c with
  | inl 0%nat => GratingCenterWavelength
  | inl 1%nat => Grating
  | inl 2%nat => ShutterTimingExposureTime
  | inl 3%nat => ReadoutControlRegionsOfInterestSelection
  | inl 4%nat => FileNameGenerationBaseFileName
  | inl 5%nat => FileNameGenerationAttachIncrement
  | inl 6%nat => FileNameGenerationAttachDate
  | inl _ => FileNameGenerationAttachTime
  | inr name => OtherSetting name
  end.

#[global] Instance Setting_countable : Countable Setting.
Proof.
  apply (inj_countable' Setting_code Setting_decode).
  intros k; destruct k; reflexivity.
Defined.

(** ** Vendor objects *)

(** [RegionOfInterest]: the vendor's value object, six integers. *)
Record RegionOfInterest := mkROI {
  X : Z; Y : Z; Width : Z; Height : Z; XBinning : Z; YBinning : Z
}.

(** Modelled from the spec: the vendor's [Experiment] class belongs to the
    LightField SDK and has no source here.  The spec describes the context as
    a map of settings in which a key exists or not, queried and written by
    key, together with a name, the sensor's full region and the custom
    regions applied last. *)
Record Experiment := mkExperiment {
  settings : gmap Setting PyValue;
  Name : string;
  FullSensorRegion : RegionOfInterest;
  CustomRegions : list RegionOfInterest
}.

(** The handle returned by the constructor [Automation(interface, args)]. *)
Record Automation := mkAutomation {
  interface_shown : bool;
  arguments : list string
}.

(** A reference to the experiment object of the running application.  The
    facade can only ever hold a reference to the object of the application it
    started last, so one slot ([lightfield] below) is the whole store. *)
Inductive ExperimentRef := ApplicationExperiment.

(** ** The facade and the world *)

Record Spectrometer := mkSpectrometer {
  auto : option Automation;
  experiment : option ExperimentRef;
  experiment_name : option string;
  ROI : option RegionOfInterest
}.

(** [Spectrometer.__init__]. *)
Definition init : Spectrometer :=
  {| auto := None; experiment := None; experiment_name := None; ROI := None |}.

(** Printed lines, one constructor per [print] of the source, holding the
    values that are interpolated. *)
Inductive Line :=
| SetTo (setting : Setting) (value : PyValue)
    (* f'{setting} set to {value}.' *)
| ErrorInSetting (setting : Setting) (value : PyValue)
    (* f'Error in setting {setting} to value: {value}.' *)
| Success (name : option string)
    (* f'Success, experiment {self.experiment_name} set up.' *)
| Err (err : exn)
    (* print(err) *)
| Disconnected.
    (* 'Lightfield disconnected.' *)

(** Vendor (and operating system) calls, with their arguments; [Exists]
    carries its answer. *)
Inductive Call :=
| CAutomation (interface : bool) (args : list string)
| CLoad (name : string)
| CGetName
| CExists (setting : Setting) (answer : bool)
| CSetValue (setting : Setting) (value : PyValue)
| CSetCustomRegions (regions : RegionOfInterest)
| CAcquire
| CSaveAs (name : option string)
| CTaskkill (image : string).

Inductive Event :=
| Printed (l : Line)
| Called (c : Call).

Record World := mkWorld {
  self : Spectrometer;
  lightfield : Experiment;
  trace : list Event
}.

(** ** The monad *)

Inductive Outcome (A : Type) :=
| Return (a : A)
| Raise (e : exn).
Arguments Return {A} a.
Arguments Raise {A} e.

Definition M (A : Type) : Type := World -> Outcome A * World.

Definition ret {A} (a : A) : M A := fun w => (Return a, w).

Definition raise {A} (e : exn) : M A := fun w => (Raise e, w).

Definition bind {A B} (m : M A) (f : A -> M B) : M B :=
  fun w =>
    match m w with
    | (Return a, w') => f a w'
    | (Raise e, w') => (Raise e, w')
    end.

Notation "x <- m ;; k" := (bind m (fun x => k))
  (at level 100, m at next level, k at level 200, right associativity).
Notation "m ;;; k" := (bind m (fun _ => k))
  (at level 100, k at level 200, right associativity).

(** [try: body except Exception as err: handler]. *)
Definition try_except {A} (body : M A) (handler : exn -> M A) : M A :=
  fun w =>
    match body w with
    | (Return a, w') => (Return a, w')
    | (Raise err, w') => handler err w'
    end.

Definition emit (ev : Event) : M unit :=
  fun w => (Return tt, {| self := self w; lightfield := lightfield w;
                          trace := trace w ++ [ev] |}).

Definition print (l : Line) : M unit := emit (Printed l).

Definition called (c : Call) : M unit := emit (Called c).

Definition get_field {A} (f : Spectrometer -> A) : M A :=
  fun w => (Return (f (self w)), w).

Definition put_self (s : Spectrometer) : M unit :=
  fun w => (Return tt, {| self := s; lightfield := lightfield w;
                          trace := trace w |}).

Definition get_lightfield : M Experiment :=
  fun w => (Return (lightfield w), w).

Definition put_lightfield (e : Experiment) : M unit :=
  fun w => (Return tt, {| self := self w; lightfield := e;
                          trace := trace w |}).

(** Assignments [self.auto = ...], [self.experiment = ...],
    [self.experiment_name = ...]. *)
Definition set_auto (a : option Automation) : M unit :=
  s <- get_field id ;;
  put_self {| auto := a; experiment := experiment s;
              experiment_name := experiment_name s; ROI := ROI s |}.

Definition set_experiment (r : option ExperimentRef) : M unit :=
  s <- get_field id ;;
  put_self {| auto := auto s; experiment := r;
              experiment_name := experiment_name s; ROI := ROI s |}.

Definition set_experiment_name (n : option string) : M unit :=
  s <- get_field id ;;
  put_self {| auto := auto s; experiment := experiment s;
              experiment_name := n; ROI := ROI s |}.

(** [self.experiment.<attr>]: the reference held by the facade, or the
    [AttributeError] Python raises when the field is still [None]. *)
Definition self_experiment (attr : string) : M ExperimentRef :=
  r <- get_field experiment ;;
  match r with
  | Some ref => ret ref
  | None => raise (AttributeError "NoneType" attr)
  end.

(** ** Vendor methods of the experiment object *)

(** Modelled from the spec: [Experiment.Exists(setting)], the vendor's
    setting-existence query; it answers whether the key is in the settings
    map and changes nothing. *)
Definition Exists (_ : ExperimentRef) (setting : Setting) : M bool :=
  e <- get_lightfield ;;
  let answer := bool_decide (is_Some (settings e !! setting)) in
  called (CExists setting answer) ;;;
  ret answer.

(** Modelled from the spec: [Experiment.SetValue(setting, value)], the
    vendor's write of one setting by key. *)
Definition SetValue (_ : ExperimentRef) (setting : Setting) (value : PyValue)
  : M unit :=
  e <- get_lightfield ;;
  called (CSetValue setting value) ;;;
  put_lightfield {| settings := <[setting := value]> (settings e);
                    Name := Name e;
                    FullSensorRegion := FullSensorRegion e;
                    CustomRegions := CustomRegions e |}.

(** ** [Spectrometer.set_value] *)

Definition set_value (setting : Setting) (value : PyValue) : M unit :=
  ex <- self_experiment "Exists" ;;
  b <- Exists ex setting ;;
  if b then
    ex' <- self_experiment "SetValue" ;;
    SetValue ex' setting value ;;;
    print (SetTo setting value)
  else
    print (ErrorInSetting setting value).

(** ** Conversions *)

(** [float(z)] for a Python [int]: the nearest binary64, ties to even;
    [OverflowError] when that is beyond the largest finite double. *)
Definition float_of_int (z : Z) : Outcome float64 :=
  match binary_normalize 53 1024 z 0 false with
  | S754_infinity _ => Raise (OverflowError "int too large to convert to float")
  | f => Return f
  end.

(** [float(x)] for a numeric argument; a [float] is returned as it is. *)
Definition float_of (x : PyNum) : Outcome float64 :=
  match x with
  | NFloat f => Return f
  | NInt z => float_of_int z
  end.

Definition py_float (x : PyNum) : M float64 :=
  match float_of x with
  | Return f => ret f
  | Raise e => raise e
  end.

Definition is_separator (c : ascii) : bool :=
  (Ascii.eqb c "\" || Ascii.eqb c "/" || Ascii.eqb c ":")%char.

(** The characters after the last separator of [path], when there is one. *)
Fixpoint after_last_separator (path : string) : option string :=
  match path with
  | EmptyString => None
  | String c rest =>
      match after_last_separator rest with
      | Some tail => Some tail
      | None => if is_separator c then Some rest else None
      end
  end.

(** Modelled from the spec: [System.IO.Path.GetFileName] is a method of the
    .NET class library, it has no source in this repository; the spec says
    that the call strips any path component of the name (basename only).  The
    definition follows the method's documented result on Windows: the
    characters after the last directory or volume separator, the whole
    string when there is none. *)
Definition GetFileName (path : string) : string :=
  match after_last_separator path with
  | Some tail => tail
  | None => path
  end.

(** ** The other vendor calls *)

(** The constructor [RegionOfInterest(x, y, width, height, xBinning,
    yBinning)] takes six integers; pythonnet finds no matching constructor
    when an argument is [None]. *)
Definition RegionOfInterest_new (x y width height xbinning ybinning : option Z)
  : M RegionOfInterest :=
  match x, y, width, height, xbinning, ybinning with
  | Some x, Some y, Some w, Some h, Some xb, Some yb =>
      ret (mkROI x y w h xb yb)
  | _, _, _, _, _, _ =>
      raise (TypeError "No method matches given arguments")
  end.

(** [Experiment.SetCustomRegions(regions)]. *)
Definition SetCustomRegions (_ : ExperimentRef) (regions : RegionOfInterest)
  : M unit :=
  e <- get_lightfield ;;
  called (CSetCustomRegions regions) ;;;
  put_lightfield {| settings := settings e;
                    Name := Name e;
                    FullSensorRegion := FullSensorRegion e;
                    CustomRegions := [regions] |}.

(** The property [Experiment.FullSensorRegion]. *)
Definition get_FullSensorRegion (_ : ExperimentRef) : M RegionOfInterest :=
  e <- get_lightfield ;;
  ret (FullSensorRegion e).

(** [Experiment.Acquire()]. *)
Definition Acquire (_ : ExperimentRef) : M unit := called CAcquire.

(** [Experiment.SaveAs(name)]. *)
Definition SaveAs (_ : ExperimentRef) (name : option string) : M unit :=
  called (CSaveAs name).

(** What the vendor runtime does at launch is outside the program: whether
    the constructor [Automation(...)] throws, which experiment object the
    application hands out (or the exception of that property), what [Load]
    leaves behind and whether it throws, whether [get_Name] throws. *)
Record Vendor := mkVendor {
  Automation_throws : bool -> list string -> option exn;
  Application_Experiment : Automation -> exn + Experiment;
  Load_result : Experiment -> string -> option exn * Experiment;
  get_Name_throws : Experiment -> option exn
}.

Section Launch.
Variable lf : Vendor.

(** [Automation(interface, List[String]())]. *)
Definition Automation_new (interface : bool) (args : list string)
  : M Automation :=
  called (CAutomation interface args) ;;;
  match Automation_throws lf interface args with
  | Some err => raise err
  | None => ret (mkAutomation interface args)
  end.

(** [auto.LightFieldApplication.Experiment]: from here on the reference
    designates the experiment object of the application just started. *)
Definition LightFieldApplication_Experiment (a : Automation)
  : M ExperimentRef :=
  match Application_Experiment lf a with
  | inl err => raise err
  | inr e => put_lightfield e ;;; ret ApplicationExperiment
  end.

(** [Experiment.Load(name)]: the object is left as the vendor call left
    it, also when the call throws. *)
Definition Load (_ : ExperimentRef) (name : string) : M unit :=
  e <- get_lightfield ;;
  called (CLoad name) ;;;
  put_lightfield (snd (Load_result lf e name)) ;;;
  match fst (Load_result lf e name) with
  | Some err => raise err
  | None => ret tt
  end.

(** [Experiment.get_Name()]. *)
Definition get_Name (_ : ExperimentRef) : M string :=
  e <- get_lightfield ;;
  called CGetName ;;;
  match get_Name_throws lf e with
  | Some err => raise err
  | None => ret (Name e)
  end.

(** ** [Spectrometer.launch_experiment] *)
Definition launch_experiment (experiment : option string) (interface : bool)
  : M unit :=
  try_except
    (a <- Automation_new interface [] ;;
     set_auto (Some a) ;;;
     a' <- get_field auto ;;
     ex <- match a' with
           | Some a' => LightFieldApplication_Experiment a'
           | None => raise (AttributeError "NoneType" "LightFieldApplication")
           end ;;
     set_experiment (Some ex) ;;;
     match experiment with
     | Some name =>
         ex1 <- self_experiment "Load" ;;
         Load ex1 name ;;;
         ex2 <- self_experiment "get_Name" ;;
         n <- get_Name ex2 ;;
         set_experiment_name (Some n)
     | None => ret tt
     end ;;;
     n <- get_field experiment_name ;;
     print (Success n))
    (fun err => print (Err err)).
End Launch.

(** ** The setters *)

(** [Spectrometer.set_center_wavelength]: the argument is forwarded as it
    is. *)
Definition set_center_wavelength (center_wave_length : PyValue) : M unit :=
  set_value GratingCenterWavelength center_wave_length.

(** [Spectrometer.set_grating].  The second branch repeats the test
    [grating == 0] of the first, as the source does. *)
Definition set_grating (grating : Z) : M unit :=
  if (grating =? 0)%Z then
    set_value Grating (PyStr "[Mirror,1200][0][0]")
  else if (grating =? 0)%Z then
    set_value Grating (PyStr "[550nm,900][1][0]")
  else if (grating =? 2)%Z then
    set_value Grating (PyStr "[750nm,300][2][0]")
  else
    ret tt.

(** The call [set_grating()]: the code defaults to 2. *)
Definition set_grating_default : M unit := set_grating 2.

(** [Spectrometer.set_exposure_time]. *)
Definition set_exposure_time (time : PyNum) : M unit :=
  t <- py_float time ;;
  set_value ShutterTimingExposureTime (PyFloat t).

(** [Spectrometer.set_saved_filename]. *)
Definition set_saved_filename (filename : string)
    (increment add_date add_time : bool) : M unit :=
  set_value FileNameGenerationBaseFileName (PyStr (GetFileName filename)) ;;;
  set_value FileNameGenerationAttachIncrement (PyBool increment) ;;;
  set_value FileNameGenerationAttachDate (PyBool add_date) ;;;
  set_value FileNameGenerationAttachTime (PyBool add_time).

(** The call [set_saved_filename(filename=filename)]: the three flags take
    their default, [False]. *)
Definition set_saved_filename_default (filename : string) : M unit :=
  set_saved_filename filename false false false.

(** [Spectrometer.get_full_sensor_size]. *)
Definition get_full_sensor_size : M (Z * Z * Z * Z * Z * Z) :=
  ex <- self_experiment "FullSensorRegion" ;;
  dimensions <- get_FullSensorRegion ex ;;
  ret (X dimensions, Y dimensions, Width dimensions, Height dimensions,
       XBinning dimensions, YBinning dimensions).

(** [self.Experiment]: the class defines the attribute [experiment]; no
    attribute of an instance is called [Experiment], so the lookup raises. *)
Definition self_Experiment : M ExperimentRef :=
  raise (AttributeError "Spectrometer" "Experiment").

(** [Spectrometer.set_custom_ROI]; every parameter defaults to [None]. *)
Definition set_custom_ROI (x y width height xbinning ybinning : option Z)
  : M RegionOfInterest :=
  let xbinning := match xbinning with None => width | Some _ => xbinning end in
  let ybinning := match ybinning with None => height | Some _ => ybinning end in
  regions <- RegionOfInterest_new x y width height xbinning ybinning ;;
  ex <- self_Experiment ;;
  SetCustomRegions ex regions ;;;
  ret regions.

(** [Spectrometer.set_sensor_mode]. *)
Definition set_sensor_mode (mode : PyNum) : M unit :=
  m <- py_float mode ;;
  set_value ReadoutControlRegionsOfInterestSelection (PyFloat m).

(** The call [set_sensor_mode()]: the mode defaults to the float [4.0]. *)
Definition set_sensor_mode_default : M unit :=
  set_sensor_mode (NFloat (S754_finite false 4503599627370496 (-50))).

(** [Spectrometer.acquire]. *)
Definition acquire (filename : string) : M unit :=
  set_saved_filename_default filename ;;;
  ex <- self_experiment "Acquire" ;;
  Acquire ex.

(** [Spectrometer.save_experiment]. *)
Definition save_experiment (name : option string) : M unit :=
  match name with
  | Some n => set_experiment_name (Some n)
  | None => ret tt
  end ;;;
  ex <- self_experiment "SaveAs" ;;
  n <- get_field experiment_name ;;
  SaveAs ex n.

(** [Spectrometer.disconnect]. *)
Definition disconnect : M unit :=
  called (CTaskkill "AddInProcess.exe") ;;;
  print Disconnected.

(** ** Vocabulary of the statements *)

(** The world with [evs] appended to its trace. *)
Definition log (evs : list Event) (w : World) : World :=
  {| self := self w; lightfield := lightfield w; trace := trace w ++ evs |}.

(** The experiment object with another settings map. *)
Definition with_settings (m : gmap Setting PyValue) (e : Experiment)
  : Experiment :=
  {| settings := m; Name := Name e; FullSensorRegion := FullSensorRegion e;
     CustomRegions := CustomRegions e |}.

(** The facade with another [experiment_name]. *)
Definition with_name (n : option string) (s : Spectrometer) : Spectrometer :=
  {| auto := auto s; experiment := experiment s; experiment_name := n;
     ROI := ROI s |}.

(** A sequence of calls of [set_value]. *)
Fixpoint writes (ws : list (Setting * PyValue)) : M unit :=
  match ws with
  | [] => ret tt
  | (k, v) :: ws' => set_value k v ;;; writes ws'
  end.

(** What one guarded write does to the settings: the key is updated when it
    exists, the map is left alone when it does not. *)
Definition write_if_exists (k : Setting) (v : PyValue)
    (m : gmap Setting PyValue) : gmap Setting PyValue :=
  if bool_decide (is_Some (m !! k)) then <[k := v]> m else m.

(** What one guarded write shows to the outside. *)
Definition report (k : Setting) (v : PyValue) (m : gmap Setting PyValue)
  : list Event :=
  if bool_decide (is_Some (m !! k))
  then [Called (CExists k true); Called (CSetValue k v); Printed (SetTo k v)]
  else [Called (CExists k false); Printed (ErrorInSetting k v)].

Fixpoint write_all (ws : list (Setting * PyValue)) (m : gmap Setting PyValue)
  : gmap Setting PyValue :=
  match ws with
  | [] => m
  | (k, v) :: ws' => write_all ws' (write_if_exists k v m)
  end.

Fixpoint report_all (ws : list (Setting * PyValue)) (m : gmap Setting PyValue)
  : list Event :=
  match ws with
  | [] => []
  | (k, v) :: ws' => report k v m ++ report_all ws' (write_if_exists k v m)
  end.

(** A trace made of guarded writes only: every [SetValue] comes right after
    an [Exists] on the same key that answered yes and is followed by its
    report; every refusal is reported too. *)
Inductive guarded : list Event -> Prop :=
| guarded_nil : guarded []
| guarded_write k v evs :
    guarded evs ->
    guarded (Called (CExists k true) :: Called (CSetValue k v)
             :: Printed (SetTo k v) :: evs)
| guarded_refusal k v evs :
    guarded evs ->
    guarded (Called (CExists k false) :: Printed (ErrorInSetting k v) :: evs).

(** The domain setters, with their arguments. *)
Inductive DomainSetter :=
| SetCenterWavelength (center_wave_length : PyValue)
| SetGrating (grating : Z)
| SetExposureTime (time : PyNum)
| SetSavedFilename (filename : string) (increment add_date add_time : bool)
| SetSensorMode (mode : PyNum).

Definition call_setter (c : DomainSetter) : M unit :=
  match c with
  | SetCenterWavelength v => set_center_wavelength v
  | SetGrating g => set_grating g
  | SetExposureTime t => set_exposure_time t
  | SetSavedFilename f i d t => set_saved_filename f i d t
  | SetSensorMode m => set_sensor_mode m
  end.

Definition is_Acquire (ev : Event) : bool :=
  match ev with
  | Called CAcquire => true
  | _ => false
  end.

(** The integer a finite binary64 denotes, when it denotes one. *)
Definition float_to_int (f : float64) : option Z :=
  match f with
  | S754_zero _ => Some 0
  | S754_finite s m e =>
      if 0 <=? e then Some (cond_Zopp s (Z.pos m * 2 ^ e))
      else if Z.pos m mod 2 ^ (- e) =? 0
           then Some (cond_Zopp s (Z.pos m / 2 ^ (- e)))
           else None
  | _ => None
  end.

(** The four writes of [set_saved_filename]. *)
Definition filename_writes (filename : string)
    (increment add_date add_time : bool) : list (Setting * PyValue) :=
  [ (FileNameGenerationBaseFileName, PyStr (GetFileName filename));
    (FileNameGenerationAttachIncrement, PyBool increment);
    (FileNameGenerationAttachDate, PyBool add_date);
    (FileNameGenerationAttachTime, PyBool add_time) ].

Fixpoint has_separator (s : string) : bool :=
  match s with
  | EmptyString => false
  | String c rest => is_separator c || has_separator rest
  end.

(** The session handle the constructor returns at launch. *)
Definition session (interface : bool) : Automation := mkAutomation interface [].

(** The facade of [w] once the session and the experiment are stored. *)
Definition attached (interface : bool) (n : option string) (w : World)
  : Spectrometer :=
  {| auto := Some (session interface);
     experiment := Some ApplicationExperiment;
     experiment_name := n; ROI := ROI (self w) |}.

(** ** Sample worlds and vendors *)

(** A facade that has been launched, on an experiment where the grating and
    the base file name can be set and nothing else. *)
Definition demo_experiment : Experiment :=
  {| settings := {[ Grating := PyStr "[550nm,900][1][0]";
                    FileNameGenerationBaseFileName := PyStr "old" ]};
     Name := "demo";
     FullSensorRegion := mkROI 0 0 1024 1024 1 1;
     CustomRegions := [] |}.

Definition demo_world : World :=
  {| self := {| auto := Some (mkAutomation true []);
                experiment := Some ApplicationExperiment;
                experiment_name := Some "demo";
                ROI := None |};
     lightfield := demo_experiment;
     trace := [] |}.

(** A launched facade on an experiment whose ROI selection can be set. *)
Definition sensor_world : World :=
  {| self := self demo_world;
     lightfield :=
       with_settings
         {[ ReadoutControlRegionsOfInterestSelection := PyFloat (S754_zero false) ]}
         demo_experiment;
     trace := [] |}.

(** A facade fresh from [__init__]. *)
Definition fresh_world : World :=
  {| self := init; lightfield := demo_experiment; trace := [] |}.

(** An experiment on which the four file name settings exist. *)
Definition saving_experiment : Experiment :=
  with_settings
    {[ FileNameGenerationBaseFileName := PyStr "old";
       FileNameGenerationAttachIncrement := PyBool true;
       FileNameGenerationAttachDate := PyBool true;
       FileNameGenerationAttachTime := PyBool true ]}
    demo_experiment.

Definition saving_world : World :=
  {| self := self demo_world; lightfield := saving_experiment; trace := [] |}.

(** A vendor runtime that starts, knows one preset, ["night"], and throws
    on any other name, leaving the experiment as it was. *)
Definition one_preset_vendor : Vendor :=
  {| Automation_throws := fun _ _ => None;
     Application_Experiment := fun _ => inr demo_experiment;
     Load_result := fun e name =>
       if String.eqb name "night"
       then (None, {| settings := settings e; Name := name;
                      FullSensorRegion := FullSensorRegion e;
                      CustomRegions := CustomRegions e |})
       else (Some (DotNetException "experiment not found"), e);
     get_Name_throws := fun _ => None |}.

(** A vendor runtime that cannot start. *)
Definition no_license_vendor : Vendor :=
  {| Automation_throws := fun _ _ => Some (DotNetException "no license");
     Application_Experiment := fun _ => inr demo_experiment;
     Load_result := fun e _ => (None, e);
     get_Name_throws := fun _ => None |}.

(** A launched facade on an experiment whose exposure time can be set. *)
Definition exposure_world : World :=
  {| self := self demo_world;
     lightfield :=
       with_settings
         {[ ShutterTimingExposureTime := PyFloat (S754_zero false) ]}
         demo_experiment;
     trace := [] |}.

(** ** Sessions

    A user drives the facade one method call after the other; a call that
    raises ends that call, not the session. *)
Inductive Method :=
| Launch (lf : Vendor) (preset : option string) (interface : bool)
| Setter (c : DomainSetter)
| GetFullSensorSize
| SetCustomROI (x y width height xbinning ybinning : option Z)
| AcquireTo (filename : string)
| SaveExperiment (name : option string)
| Disconnect.

(** A call whose result is dropped. *)
Definition discard {A} (m : M A) : M unit := _ <- m ;; ret tt.

Definition invoke (m : Method) : M unit :=
  match m with
  | Launch lf preset interface => launch_experiment lf preset interface
  | Setter c => call_setter c
  | GetFullSensorSize => discard get_full_sensor_size
  | SetCustomROI x y width height xbinning ybinning =>
      discard (set_custom_ROI x y width height xbinning ybinning)
  | AcquireTo filename => acquire filename
  | SaveExperiment name => save_experiment name
  | Disconnect => disconnect
  end.

Fixpoint run_calls (ms : list Method) (w : World) : World :=
  match ms with
  | [] => w
  | m :: ms' => run_calls ms' (snd (invoke m w))
  end.




(** A write of the second grating's descriptor, 900 g/mm blazed at 550 nm. *)
Definition selects_900 (ev : Event) : bool :=
  match ev with
  | Called (CSetValue Grating (PyStr s)) => String.eqb s "[550nm,900][1][0]"
  | _ => false
  end.

(** The four keys [set_saved_filename] writes. *)
Definition is_filename_key (k : Setting) : bool :=
  match k with
  | FileNameGenerationBaseFileName
  | FileNameGenerationAttachIncrement
  | FileNameGenerationAttachDate
  | FileNameGenerationAttachTime => true
  | _ => false
  end.


Definition is_SetValue (ev : Event) : bool :=
  match ev with
  | Called (CSetValue _ _) => true
  | _ => false
  end.

Definition is_CAutomation (ev : Event) : bool :=
  match ev with
  | Called (CAutomation _ _) => true
  | _ => false
  end.

(** A trace in which every [SetValue] comes right after an [Exists] on the
    same key that answered yes, and right before the report of the write;
    other events are free. *)
Inductive checked : list Event -> Prop :=
| checked_nil : checked []
| checked_write k v evs :
    checked evs ->
    checked (Called (CExists k true) :: Called (CSetValue k v)
             :: Printed (SetTo k v) :: evs)
| checked_other ev evs :
    is_SetValue ev = false ->
    checked evs ->
    checked (ev :: evs).

(** * Properties *)

(** ** The monad and the guarded write *)

Ltac run :=
  unfold bind, ret, raise, print, called, emit, get_field, put_self,
    get_lightfield, put_lightfield; simpl.

Lemma log_log evs1 evs2 w : log evs2 (log evs1 w) = log (evs1 ++ evs2) w.
Proof. unfold log; simpl. by rewrite List.app_assoc. Qed.

Lemma log_nil w : log [] w = w.
Proof. destruct w; unfold log; simpl. by rewrite app_nil_r. Qed.

Lemma bind_ret_r (m : M unit) w : (m ;;; ret tt) w = m w.
Proof.
  unfold bind, ret. destruct (m w) as [[[]|e] w']; reflexivity.
Qed.

Lemma self_experiment_Some attr w ref :
  experiment (self w) = Some ref ->
  self_experiment attr w = (Return ref, w).
Proof. intros H. unfold self_experiment. run. by rewrite H. Qed.

Lemma self_experiment_None attr w :
  experiment (self w) = None ->
  self_experiment attr w = (Raise (AttributeError "NoneType" attr), w).
Proof. intros H. unfold self_experiment. run. by rewrite H. Qed.

(** One call of [set_value] on a launched facade. *)
Lemma set_value_launched k v w ref :
  experiment (self w) = Some ref ->
  set_value k v w =
    (Return tt,
     {| self := self w;
        lightfield :=
          with_settings (write_if_exists k v (settings (lightfield w)))
                        (lightfield w);
        trace := trace w ++ report k v (settings (lightfield w)) |}).
Proof.
  intros H. unfold set_value.
  unfold bind at 1. rewrite (self_experiment_Some _ _ _ H).
  unfold Exists, SetValue, report, write_if_exists. run.
  destruct (bool_decide (is_Some (settings (lightfield w) !! k))); simpl.
  - unfold self_experiment. run. rewrite H. simpl.
    rewrite <- !List.app_assoc. reflexivity.
  - run. rewrite <- !List.app_assoc. simpl. unfold with_settings.
    destruct (lightfield w); reflexivity.
Qed.

(** Before a launch the attribute lookup on [None] raises, and nothing
    happens. *)
Lemma set_value_unlaunched k v w :
  experiment (self w) = None ->
  set_value k v w = (Raise (AttributeError "NoneType" "Exists"), w).
Proof.
  intros H. unfold set_value.
  unfold bind at 1. by rewrite (self_experiment_None _ _ H).
Qed.

Lemma writes_launched ws : forall w ref,
  experiment (self w) = Some ref ->
  writes ws w =
    (Return tt,
     {| self := self w;
        lightfield :=
          with_settings (write_all ws (settings (lightfield w)))
                        (lightfield w);
        trace := trace w ++ report_all ws (settings (lightfield w)) |}).
Proof.
  induction ws as [|[k v] ws IH]; intros w ref H; simpl.
  - unfold ret, with_settings. rewrite app_nil_r.
    destruct w as [s [] t]; reflexivity.
  - unfold bind. rewrite (set_value_launched _ _ _ _ H).
    rewrite (IH _ ref) by exact H. simpl.
    rewrite <- List.app_assoc. reflexivity.
Qed.

Lemma writes_unlaunched k v ws w :
  experiment (self w) = None ->
  writes ((k, v) :: ws) w = (Raise (AttributeError "NoneType" "Exists"), w).
Proof.
  intros H. simpl. unfold bind. by rewrite (set_value_unlaunched _ _ _ H).
Qed.

Lemma report_guarded k v m evs :
  guarded evs -> guarded (report k v m ++ evs).
Proof.
  intros H. unfold report.
  destruct (bool_decide _); simpl; by constructor.
Qed.

Lemma report_all_guarded ws : forall m, guarded (report_all ws m).
Proof.
  induction ws as [|[k v] ws IH]; intros m; simpl.
  - constructor.
  - apply report_guarded, IH.
Qed.

(** In a guarded trace a [SetValue] never stands alone. *)
Lemma guarded_SetValue evs :
  guarded evs ->
  forall pre k v post,
    evs = pre ++ Called (CSetValue k v) :: post ->
    (exists pre', pre = pre' ++ [Called (CExists k true)]) /\
    (exists post', post = Printed (SetTo k v) :: post').
Proof.
  induction 1 as [|k0 v0 evs H IH|k0 v0 evs H IH]; intros pre k v post E.
  - destruct pre; discriminate.
  - destruct pre as [|a [|b [|c pre]]]; simplify_eq/=.
    + split; [by exists [] | by eexists].
    + destruct (IH _ _ _ _ eq_refl) as [[pre' ->] Hpost].
      split; [|exact Hpost].
      by exists (Called (CExists k0 true) :: Called (CSetValue k0 v0)
                 :: Printed (SetTo k0 v0) :: pre').
  - destruct pre as [|a [|b pre]]; simplify_eq/=.
    destruct (IH _ _ _ _ eq_refl) as [[pre' ->] Hpost].
    split; [|exact Hpost].
    by exists (Called (CExists k0 false) :: Printed (ErrorInSetting k0 v0)
               :: pre').
Qed.

(** Whatever the state of the facade, a sequence of [set_value] calls only
    appends a guarded trace. *)
Lemma writes_trace ws w :
  exists evs, trace (snd (writes ws w)) = trace w ++ evs /\ guarded evs.
Proof.
  destruct (experiment (self w)) as [ref|] eqn:H.
  - rewrite (writes_launched _ _ _ H). simpl.
    eexists; split; [reflexivity | apply report_all_guarded].
  - destruct ws as [|[k v] ws].
    + exists []. simpl. rewrite app_nil_r. split; [done | constructor].
    + rewrite (writes_unlaunched _ _ _ _ H). simpl.
      exists []. rewrite app_nil_r. split; [done | constructor].
Qed.

Lemma bind_ext {A B} (m : M A) (f g : A -> M B) w :
  (forall a w', f a w' = g a w') -> bind m f w = bind m g w.
Proof.
  intros H. unfold bind. destruct (m w) as [[a|e] w']; [apply H | reflexivity].
Qed.

Lemma writes_one k v w : writes [(k, v)] w = set_value k v w.
Proof. simpl. apply bind_ret_r. Qed.

(** ** The claims *)

(** C1. The guarded write: on a launched facade, [set_value] asks the
    experiment whether the key exists.  When it does not, the call reports
    the failure and changes neither the experiment nor the facade, and no
    [SetValue] is issued; when it does, the setting becomes exactly the given
    value, no other setting moves, and the success is reported. *)
Theorem set_value_guarded_write
    (w : World) (ref : ExperimentRef) (setting : Setting) (value : PyValue) :
  experiment (self w) = Some ref ->
  (settings (lightfield w) !! setting = None ->
   set_value setting value w =
     (Return tt,
      log [Called (CExists setting false);
           Printed (ErrorInSetting setting value)] w))
  /\
  (is_Some (settings (lightfield w) !! setting) ->
   exists w',
     set_value setting value w = (Return tt, w') /\
     settings (lightfield w') = <[setting := value]> (settings (lightfield w)) /\
     settings (lightfield w') !! setting = Some value /\
     (forall k, k <> setting ->
        settings (lightfield w') !! k = settings (lightfield w) !! k) /\
     self w' = self w /\
     trace w' = trace w ++ [Called (CExists setting true);
                            Called (CSetValue setting value);
                            Printed (SetTo setting value)]).
Proof.
  intros Hex. rewrite (set_value_launched _ _ _ _ Hex).
  unfold write_if_exists, report. split.
  - intros Hnone. rewrite Hnone. simpl.
    unfold log, with_settings. destruct w as [s [] t]; reflexivity.
  - intros Hsome. rewrite bool_decide_eq_true_2 by exact Hsome.
    eexists. split; [reflexivity|]. simpl.
    repeat split.
    + apply lookup_insert_eq.
    + intros k Hk. by apply lookup_insert_ne.
Qed.

Lemma set_value_guarded_write_witness :
  set_value ShutterTimingExposureTime (PyInt 20) demo_world =
    (Return tt,
     log [Called (CExists ShutterTimingExposureTime false);
          Printed (ErrorInSetting ShutterTimingExposureTime (PyInt 20))]
       demo_world)
  /\
  exists w',
    set_value Grating (PyStr "[Mirror,1200][0][0]") demo_world = (Return tt, w')
    /\ settings (lightfield w') !! Grating = Some (PyStr "[Mirror,1200][0][0]").
Proof.
  split.
  - apply (set_value_guarded_write demo_world ApplicationExperiment
             ShutterTimingExposureTime (PyInt 20) eq_refl).
    vm_compute. reflexivity.
  - destruct (proj2 (set_value_guarded_write demo_world ApplicationExperiment
                       Grating (PyStr "[Mirror,1200][0][0]") eq_refl))
      as (w' & Hrun & _ & Hval & _).
    + vm_compute. eexists. reflexivity.
    + exists w'. split; assumption.
Defined.

(** C2. Every domain setter (center wavelength, grating, exposure time,
    saved file name with its flags, sensor mode) does nothing but call
    [set_value]: its whole effect on any world is that of a fixed sequence of
    [set_value] calls, unless the conversion of its argument raises before
    anything is done.  Hence whatever a setter adds to the trace is made of
    guarded writes: no [SetValue] without its existence check and report. *)
Theorem setters_route_through_set_value (c : DomainSetter) :
  ((exists ws, forall w, call_setter c w = writes ws w) \/
   (exists err, forall w, call_setter c w = (Raise err, w)))
  /\
  (forall w, exists evs,
     trace (snd (call_setter c w)) = trace w ++ evs /\ guarded evs).
Proof.
  assert (Hshape : (exists ws, forall w, call_setter c w = writes ws w) \/
                   (exists err, forall w, call_setter c w = (Raise err, w))).
  { destruct c as [v|g|t|f i d t|m]; simpl.
    - left. exists [(GratingCenterWavelength, v)]. intros w.
      by rewrite writes_one.
    - unfold set_grating. destruct (g =? 0).
      + left. eexists [(_, _)]. intros w. by rewrite writes_one.
      + destruct (g =? 2).
        * left. eexists [(_, _)]. intros w. by rewrite writes_one.
        * left. exists []. reflexivity.
    - unfold set_exposure_time, py_float. destruct (float_of t) as [f|e].
      + left. eexists [(_, _)]. intros w. by rewrite writes_one.
      + right. exists e. reflexivity.
    - left. exists (filename_writes f i d t). intros w.
      unfold set_saved_filename, filename_writes, writes.
      repeat (apply bind_ext; intros _ ?).
      symmetry. apply bind_ret_r.
    - unfold set_sensor_mode, py_float. destruct (float_of m) as [f|e].
      + left. eexists [(_, _)]. intros w. by rewrite writes_one.
      + right. exists e. reflexivity. }
  split; [exact Hshape|].
  intros w. destruct Hshape as [[ws H]|[err H]]; rewrite H.
  - apply writes_trace.
  - exists []. simpl. rewrite app_nil_r. split; [done | constructor].
Qed.

(** C3. [set_grating] maps code 0 to the mirror descriptor and code 2 to
    the 300 g/mm, 750 nm descriptor, each through the guarded write of the
    [Grating] setting; code 1 and every other code do nothing at all: no
    vendor call, no line printed, no exception. *)
Theorem set_grating_mapping :
  (forall w, set_grating 0 w =
             set_value Grating (PyStr "[Mirror,1200][0][0]") w) /\
  (forall w, set_grating 2 w =
             set_value Grating (PyStr "[750nm,300][2][0]") w) /\
  (forall w, set_grating 1 w = (Return tt, w)) /\
  (forall g w, g <> 0 -> g <> 2 -> set_grating g w = (Return tt, w)).
Proof.
  repeat split; try reflexivity.
  intros g w H0 H2. unfold set_grating.
  destruct (Z.eqb_spec g 0) as [|_]; [contradiction|].
  destruct (Z.eqb_spec g 2) as [|_]; [contradiction|].
  reflexivity.
Qed.

Lemma set_grating_mapping_witness :
  set_grating 7 demo_world = (Return tt, demo_world).
Proof.
  apply (proj2 (proj2 (proj2 set_grating_mapping)) 7 demo_world); lia.
Defined.

(** *** One guarded write on the settings map *)

Lemma lookup_write_if_exists_eq k v (m : gmap Setting PyValue) :
  is_Some (m !! k) -> write_if_exists k v m !! k = Some v.
Proof.
  intros H. unfold write_if_exists.
  rewrite (bool_decide_eq_true_2 _ H). apply lookup_insert_eq.
Qed.

Lemma lookup_write_if_exists_ne k k' v (m : gmap Setting PyValue) :
  k <> k' -> write_if_exists k v m !! k' = m !! k'.
Proof.
  intros H. unfold write_if_exists.
  destruct (bool_decide _); [by apply lookup_insert_ne | reflexivity].
Qed.

Lemma write_if_exists_absent k v (m : gmap Setting PyValue) :
  m !! k = None -> write_if_exists k v m = m.
Proof.
  intros H. unfold write_if_exists.
  rewrite bool_decide_eq_false_2; [reflexivity|].
  rewrite H. by intros [? ?].
Qed.

(** *** File names *)

Lemma after_last_separator_None path :
  after_last_separator path = None -> has_separator path = false.
Proof.
  induction path as [|c rest IH]; simpl; [reflexivity|].
  destruct (after_last_separator rest) as [tail|]; [discriminate|].
  destruct (is_separator c); [discriminate|].
  intros _. by apply IH.
Qed.

Lemma after_last_separator_Some path : forall tail,
  after_last_separator path = Some tail ->
  has_separator tail = false /\
  exists dir c, is_separator c = true /\
                path = (dir ++ String c tail)%string.
Proof.
  induction path as [|c rest IH]; simpl; intros tail H; [discriminate|].
  destruct (after_last_separator rest) as [tail'|] eqn:E.
  - injection H as ->.
    destruct (IH tail eq_refl) as (Hsep & dir & c' & Hc' & ->).
    split; [exact Hsep|].
    by exists (String c dir), c'.
  - destruct (is_separator c) eqn:Hc; [|discriminate].
    injection H as ->.
    split; [by apply after_last_separator_None|].
    by exists EmptyString, c.
Qed.

Lemma GetFileName_basename path :
  has_separator (GetFileName path) = false /\
  exists dir, path = (dir ++ GetFileName path)%string.
Proof.
  unfold GetFileName.
  destruct (after_last_separator path) as [tail|] eqn:E.
  - destruct (after_last_separator_Some _ _ E) as (Hsep & dir & c & _ & ->).
    split; [exact Hsep|].
    exists (dir ++ String c EmptyString)%string.
    clear. induction dir as [|a dir IH]; [reflexivity|].
    change (String a (dir ++ String c tail) =
            String a ((dir ++ String c EmptyString) ++ tail))%string.
    by f_equal.
  - split; [by apply after_last_separator_None | by exists EmptyString].
Qed.

Example GetFileName_run1 : GetFileName "C:\data\run1.csv" = "run1.csv".
Proof. reflexivity. Qed.

Lemma set_saved_filename_as_writes filename increment add_date add_time w :
  set_saved_filename filename increment add_date add_time w =
  writes (filename_writes filename increment add_date add_time) w.
Proof.
  unfold set_saved_filename, filename_writes, writes.
  repeat (apply bind_ext; intros _ ?).
  symmetry. apply bind_ret_r.
Qed.

(** C5. [set_saved_filename] keeps only the base name of the file name (no
    separator is left in it, and it is what ends the given name), and its
    effect is that of four [set_value] calls in this order: base name,
    increment, date, time, the flags as they were passed; the call with the
    file name alone passes [False] three times.  The four writes are
    independent: each one lands or is refused by its own existence check and
    nothing is rolled back, so when the base name exists and the increment
    flag does not, the call returns with the new base name stored. *)
Theorem set_saved_filename_writes
    (filename : string) (increment add_date add_time : bool) :
  has_separator (GetFileName filename) = false /\
  (exists dir, filename = (dir ++ GetFileName filename)%string) /\
  (forall w,
     set_saved_filename filename increment add_date add_time w =
     (set_value FileNameGenerationBaseFileName (PyStr (GetFileName filename)) ;;;
      set_value FileNameGenerationAttachIncrement (PyBool increment) ;;;
      set_value FileNameGenerationAttachDate (PyBool add_date) ;;;
      set_value FileNameGenerationAttachTime (PyBool add_time)) w) /\
  (forall w,
     set_saved_filename_default filename w =
     set_saved_filename filename false false false w) /\
  (forall w ref,
     experiment (self w) = Some ref ->
     set_saved_filename filename increment add_date add_time w =
     (Return tt,
      {| self := self w;
         lightfield :=
           with_settings
             (write_if_exists FileNameGenerationAttachTime (PyBool add_time)
               (write_if_exists FileNameGenerationAttachDate (PyBool add_date)
                 (write_if_exists FileNameGenerationAttachIncrement
                    (PyBool increment)
                   (write_if_exists FileNameGenerationBaseFileName
                      (PyStr (GetFileName filename))
                      (settings (lightfield w))))))
             (lightfield w);
         trace :=
           trace w ++
           report_all (filename_writes filename increment add_date add_time)
             (settings (lightfield w)) |})) /\
  (forall w ref,
     experiment (self w) = Some ref ->
     is_Some (settings (lightfield w) !! FileNameGenerationBaseFileName) ->
     settings (lightfield w) !! FileNameGenerationAttachIncrement = None ->
     exists w',
       set_saved_filename filename increment add_date add_time w =
         (Return tt, w') /\
       settings (lightfield w') !! FileNameGenerationBaseFileName =
         Some (PyStr (GetFileName filename)) /\
       settings (lightfield w') !! FileNameGenerationAttachIncrement = None).
Proof.
  destruct (GetFileName_basename filename) as [Hsep Hdir].
  split; [exact Hsep|]. split; [exact Hdir|].
  split; [reflexivity|]. split; [reflexivity|].
  assert (Hrun : forall w ref,
     experiment (self w) = Some ref ->
     set_saved_filename filename increment add_date add_time w =
     (Return tt,
      {| self := self w;
         lightfield :=
           with_settings
             (write_all (filename_writes filename increment add_date add_time)
                (settings (lightfield w)))
             (lightfield w);
         trace :=
           trace w ++
           report_all (filename_writes filename increment add_date add_time)
             (settings (lightfield w)) |})).
  { intros w ref H. rewrite set_saved_filename_as_writes.
    by apply (writes_launched _ _ ref). }
  split; [exact Hrun|].
  intros w ref H Hbase Hinc.
  eexists. split; [by apply (Hrun w ref)|].
  simpl. split.
  - rewrite !lookup_write_if_exists_ne by discriminate.
    by apply lookup_write_if_exists_eq.
  - rewrite !lookup_write_if_exists_ne by discriminate.
    rewrite write_if_exists_absent;
      by rewrite lookup_write_if_exists_ne by discriminate.
Qed.

Lemma set_saved_filename_writes_witness :
  (* all four settings exist: four writes, in order *)
  set_saved_filename "C:\data\run1.csv" false false false saving_world =
    (Return tt,
     {| self := self saving_world;
        lightfield :=
          with_settings
            {[ FileNameGenerationBaseFileName := PyStr "run1.csv";
               FileNameGenerationAttachIncrement := PyBool false;
               FileNameGenerationAttachDate := PyBool false;
               FileNameGenerationAttachTime := PyBool false ]}
            demo_experiment;
        trace :=
          [ Called (CExists FileNameGenerationBaseFileName true);
            Called (CSetValue FileNameGenerationBaseFileName (PyStr "run1.csv"));
            Printed (SetTo FileNameGenerationBaseFileName (PyStr "run1.csv"));
            Called (CExists FileNameGenerationAttachIncrement true);
            Called (CSetValue FileNameGenerationAttachIncrement (PyBool false));
            Printed (SetTo FileNameGenerationAttachIncrement (PyBool false));
            Called (CExists FileNameGenerationAttachDate true);
            Called (CSetValue FileNameGenerationAttachDate (PyBool false));
            Printed (SetTo FileNameGenerationAttachDate (PyBool false));
            Called (CExists FileNameGenerationAttachTime true);
            Called (CSetValue FileNameGenerationAttachTime (PyBool false));
            Printed (SetTo FileNameGenerationAttachTime (PyBool false)) ] |})
  /\
  (* only the base name exists: a mixed configuration *)
  exists w',
    set_saved_filename "C:\data\run1.csv" true true true demo_world =
      (Return tt, w') /\
    settings (lightfield w') !! FileNameGenerationBaseFileName =
      Some (PyStr "run1.csv") /\
    settings (lightfield w') !! FileNameGenerationAttachIncrement = None.
Proof.
  split.
  - rewrite (proj1 (proj2 (proj2 (proj2 (proj2
               (set_saved_filename_writes "C:\data\run1.csv"
                  false false false)))))
               saving_world ApplicationExperiment eq_refl).
    vm_compute. reflexivity.
  - apply (proj2 (proj2 (proj2 (proj2 (proj2
             (set_saved_filename_writes "C:\data\run1.csv" true true true)))))
             demo_world ApplicationExperiment eq_refl).
    + vm_compute. eexists. reflexivity.
    + vm_compute. reflexivity.
Defined.

(** *** Regions of interest *)

(** C4, as the code behaves.  [set_custom_ROI] builds the region, with the
    binning defaulting to the width and the height, and then looks up
    [self.Experiment], an attribute the facade does not have: for
    [set_custom_ROI(0, 0, 512, 512)] the region (0, 0, 512, 512, 512, 512) is
    built, the call raises [AttributeError], no region is applied and none is
    returned.  No call of [set_custom_ROI] returns a region. *)
Theorem set_custom_ROI_raises :
  (forall w,
     RegionOfInterest_new (Some 0) (Some 0) (Some 512) (Some 512)
       (Some 512) (Some 512) w
     = (Return (mkROI 0 0 512 512 512 512), w)) /\
  (forall w,
     set_custom_ROI (Some 0) (Some 0) (Some 512) (Some 512) None None w
     = (Raise (AttributeError "Spectrometer" "Experiment"), w)) /\
  (forall x y width height xbinning ybinning w,
     exists err,
       set_custom_ROI x y width height xbinning ybinning w = (Raise err, w)).
Proof.
  split; [reflexivity|]. split; [reflexivity|].
  intros x y width height xbinning ybinning w.
  unfold set_custom_ROI, RegionOfInterest_new, self_Experiment. run.
  destruct x, y, width, height, xbinning, ybinning; simpl; by eexists.
Qed.

(** C8. On a launched facade [get_full_sensor_size] returns the six
    components of the experiment's full sensor region, in the order x, y,
    width, height, x binning, y binning, and leaves the world as it was: no
    vendor method is called, nothing is written, nothing is printed. *)
Theorem get_full_sensor_size_passthrough
    (w : World) (ref : ExperimentRef) (x y width height xbinning ybinning : Z) :
  experiment (self w) = Some ref ->
  FullSensorRegion (lightfield w) = mkROI x y width height xbinning ybinning ->
  get_full_sensor_size w =
    (Return (x, y, width, height, xbinning, ybinning), w).
Proof.
  intros Hex Hreg. unfold get_full_sensor_size.
  unfold bind at 1. rewrite (self_experiment_Some _ _ _ Hex).
  unfold get_FullSensorRegion. run. by rewrite Hreg.
Qed.

Lemma get_full_sensor_size_passthrough_witness :
  get_full_sensor_size demo_world =
    (Return (0, 0, 1024, 1024, 1, 1), demo_world).
Proof.
  apply (get_full_sensor_size_passthrough demo_world ApplicationExperiment
           0 0 1024 1024 1 1); reflexivity.
Defined.

(** *** Acquisition *)

Lemma filter_is_Acquire_report_all ws : forall m,
  List.filter is_Acquire (report_all ws m) = [].
Proof.
  induction ws as [|[k v] ws IH]; intros m; simpl; [reflexivity|].
  rewrite List.filter_app, IH, app_nil_r.
  unfold report. by destruct (bool_decide _).
Qed.

(** Before a launch [acquire] raises at the first write and no acquisition
    is triggered. *)
Lemma acquire_unlaunched filename w :
  experiment (self w) = None ->
  acquire filename w = (Raise (AttributeError "NoneType" "Exists"), w).
Proof.
  intros H. unfold acquire, set_saved_filename_default.
  unfold bind at 1. rewrite set_saved_filename_as_writes.
  unfold filename_writes. by rewrite (writes_unlaunched _ _ _ _ H).
Qed.

(** C6. On a launched facade, for every file name, [acquire] first does
    what one call of [set_saved_filename] with the default flags does, and
    then triggers the acquisition: the world it leaves is the one the file
    name setting leaves, with one [Acquire] call appended to the trace.  The
    file name setting itself triggers no acquisition, so exactly one
    [Acquire] is added, and it comes after the last file name write. *)
Theorem acquire_sequencing
    (filename : string) (w : World) (ref : ExperimentRef) :
  experiment (self w) = Some ref ->
  exists w1,
    set_saved_filename filename false false false w = (Return tt, w1) /\
    acquire filename w = (Return tt, log [Called CAcquire] w1) /\
    trace w1 =
      trace w ++ report_all (filename_writes filename false false false)
                   (settings (lightfield w)) /\
    List.filter is_Acquire (trace w1) = List.filter is_Acquire (trace w) /\
    List.filter is_Acquire (trace (snd (acquire filename w))) =
      List.filter is_Acquire (trace w) ++ [Called CAcquire].
Proof.
  intros Hex.
  pose proof (writes_launched (filename_writes filename false false false)
                w ref Hex) as Hw.
  rewrite <- set_saved_filename_as_writes in Hw.
  eexists. split; [exact Hw|].
  assert (Hacq : acquire filename w =
                 (Return tt, log [Called CAcquire]
                   {| self := self w;
                      lightfield :=
                        with_settings
                          (write_all
                             (filename_writes filename false false false)
                             (settings (lightfield w))) (lightfield w);
                      trace :=
                        trace w ++
                        report_all (filename_writes filename false false false)
                          (settings (lightfield w)) |})).
  { unfold acquire, set_saved_filename_default.
    unfold bind at 1. rewrite Hw.
    unfold bind at 1. rewrite (self_experiment_Some _ _ ref) by exact Hex.
    reflexivity. }
  split; [exact Hacq|]. split; [reflexivity|].
  rewrite Hacq. unfold log. cbn [snd trace].
  rewrite !List.filter_app, filter_is_Acquire_report_all, app_nil_r.
  split; reflexivity.
Qed.

Lemma acquire_sequencing_witness :
  exists w1,
    set_saved_filename "run2" false false false saving_world = (Return tt, w1)
    /\ acquire "run2" saving_world = (Return tt, log [Called CAcquire] w1)
    /\ List.filter is_Acquire (trace (snd (acquire "run2" saving_world))) =
       [Called CAcquire].
Proof.
  destruct (acquire_sequencing "run2" saving_world ApplicationExperiment
              eq_refl) as (w1 & Hset & Hacq & _ & _ & Hone).
  exists w1. split; [exact Hset|]. split; [exact Hacq|]. exact Hone.
Defined.

(** *** Saving *)

(** C9. [save_experiment] touches no field of the facade but
    [experiment_name], and it does not touch the experiment object.  With a
    name it first stores the name, whether or not the save that follows can
    be made, and on a launched facade then saves under it; the name stays the
    active one, so a later call without a name saves under it again.  Without
    a name it never changes a field of the facade, and on a launched facade
    it saves under the stored name and changes nothing but the trace. *)
Theorem save_experiment_frame :
  (forall name w,
     auto (self (snd (save_experiment name w))) = auto (self w) /\
     experiment (self (snd (save_experiment name w))) = experiment (self w) /\
     ROI (self (snd (save_experiment name w))) = ROI (self w) /\
     lightfield (snd (save_experiment name w)) = lightfield w) /\
  (forall n w,
     experiment_name (self (snd (save_experiment (Some n) w))) = Some n) /\
  (forall w, self (snd (save_experiment None w)) = self w) /\
  (forall n w ref,
     experiment (self w) = Some ref ->
     save_experiment (Some n) w =
       (Return tt,
        {| self := with_name (Some n) (self w);
           lightfield := lightfield w;
           trace := trace w ++ [Called (CSaveAs (Some n))] |})) /\
  (forall w ref,
     experiment (self w) = Some ref ->
     save_experiment None w =
       (Return tt, log [Called (CSaveAs (experiment_name (self w)))] w)) /\
  (forall n w ref,
     experiment (self w) = Some ref ->
     trace (snd (save_experiment None (snd (save_experiment (Some n) w)))) =
       trace w ++ [Called (CSaveAs (Some n)); Called (CSaveAs (Some n))]).
Proof.
  assert (Hsome : forall n w ref,
     experiment (self w) = Some ref ->
     save_experiment (Some n) w =
       (Return tt,
        {| self := with_name (Some n) (self w);
           lightfield := lightfield w;
           trace := trace w ++ [Called (CSaveAs (Some n))] |})).
  { intros n w ref H.
    unfold save_experiment, set_experiment_name, self_experiment, SaveAs,
      with_name.
    run. rewrite H. reflexivity. }
  assert (Hnone : forall w ref,
     experiment (self w) = Some ref ->
     save_experiment None w =
       (Return tt, log [Called (CSaveAs (experiment_name (self w)))] w)).
  { intros w ref H. unfold save_experiment, self_experiment, SaveAs. run.
    rewrite H. reflexivity. }
  split; [|split; [|split; [|split; [exact Hsome|split; [exact Hnone|]]]]].
  - intros name w.
    unfold save_experiment, set_experiment_name, self_experiment, SaveAs. run.
    destruct name, (experiment (self w)) eqn:E; simpl; rewrite ?E;
      repeat split.
  - intros n w.
    unfold save_experiment, set_experiment_name, self_experiment, SaveAs. run.
    destruct (experiment (self w)); reflexivity.
  - intros w.
    unfold save_experiment, self_experiment, SaveAs. run.
    destruct (experiment (self w)); reflexivity.
  - intros n w ref H. rewrite (Hsome n w ref H). simpl.
    rewrite (Hnone _ ref) by exact H. simpl.
    by rewrite <- List.app_assoc.
Qed.

Lemma save_experiment_frame_witness :
  save_experiment (Some "night") demo_world =
    (Return tt,
     {| self := with_name (Some "night") (self demo_world);
        lightfield := lightfield demo_world;
        trace := [Called (CSaveAs (Some "night"))] |})
  /\
  save_experiment None demo_world =
    (Return tt, log [Called (CSaveAs (Some "demo"))] demo_world).
Proof.
  split.
  - apply (proj1 (proj2 (proj2 (proj2 save_experiment_frame)))
             "night" demo_world ApplicationExperiment).
    reflexivity.
  - apply (proj1 (proj2 (proj2 (proj2 (proj2 save_experiment_frame))))
             demo_world ApplicationExperiment).
    reflexivity.
Defined.

(** *** Launch *)

Section LaunchProperties.
Variable lf : Vendor.
Variable preset : option string.
Variable interface : bool.
Variable w : World.

Lemma launch_startup_throws err :
  Automation_throws lf interface [] = Some err ->
  launch_experiment lf preset interface w =
    (Return tt,
     log [Called (CAutomation interface []); Printed (Err err)] w).
Proof.
  intros H. unfold launch_experiment, try_except, Automation_new. run.
  rewrite H. simpl. unfold log. by rewrite <- List.app_assoc.
Qed.

Lemma launch_property_throws err :
  Automation_throws lf interface [] = None ->
  Application_Experiment lf (session interface) = inl err ->
  launch_experiment lf preset interface w =
    (Return tt,
     {| self := {| auto := Some (session interface);
                   experiment := experiment (self w);
                   experiment_name := experiment_name (self w);
                   ROI := ROI (self w) |};
        lightfield := lightfield w;
        trace := trace w ++ [Called (CAutomation interface []);
                             Printed (Err err)] |}).
Proof.
  intros H1 H2.
  unfold session, attached in *.
  unfold launch_experiment, try_except, Automation_new, set_auto,
    LightFieldApplication_Experiment.
  run. rewrite H1. simpl. rewrite H2. simpl.
  by rewrite <- List.app_assoc.
Qed.

Lemma launch_load_throws e name err :
  Automation_throws lf interface [] = None ->
  Application_Experiment lf (session interface) = inr e ->
  preset = Some name ->
  fst (Load_result lf e name) = Some err ->
  launch_experiment lf preset interface w =
    (Return tt,
     {| self := attached interface (experiment_name (self w)) w;
        lightfield := snd (Load_result lf e name);
        trace := trace w ++ [Called (CAutomation interface []);
                             Called (CLoad name);
                             Printed (Err err)] |}).
Proof.
  intros H1 H2 -> H3.
  unfold session, attached in *.
  unfold launch_experiment, try_except, Automation_new, set_auto,
    LightFieldApplication_Experiment, set_experiment, self_experiment, Load.
  run. rewrite H1. simpl. rewrite H2. simpl.
  rewrite H3. simpl. by rewrite <- !List.app_assoc.
Qed.

Lemma launch_get_Name_throws e name err :
  Automation_throws lf interface [] = None ->
  Application_Experiment lf (session interface) = inr e ->
  preset = Some name ->
  fst (Load_result lf e name) = None ->
  get_Name_throws lf (snd (Load_result lf e name)) = Some err ->
  launch_experiment lf preset interface w =
    (Return tt,
     {| self := attached interface (experiment_name (self w)) w;
        lightfield := snd (Load_result lf e name);
        trace := trace w ++ [Called (CAutomation interface []);
                             Called (CLoad name); Called CGetName;
                             Printed (Err err)] |}).
Proof.
  intros H1 H2 -> H3 H4.
  unfold session, attached in *.
  unfold launch_experiment, try_except, Automation_new, set_auto,
    LightFieldApplication_Experiment, set_experiment, self_experiment, Load,
    get_Name.
  run. rewrite H1. simpl. rewrite H2. simpl.
  rewrite H3. simpl. rewrite H4. simpl. by rewrite <- !List.app_assoc.
Qed.

Lemma launch_preset_loaded e name :
  Automation_throws lf interface [] = None ->
  Application_Experiment lf (session interface) = inr e ->
  preset = Some name ->
  fst (Load_result lf e name) = None ->
  get_Name_throws lf (snd (Load_result lf e name)) = None ->
  launch_experiment lf preset interface w =
    (Return tt,
     {| self := attached interface (Some (Name (snd (Load_result lf e name)))) w;
        lightfield := snd (Load_result lf e name);
        trace := trace w ++
                 [Called (CAutomation interface []);
                  Called (CLoad name); Called CGetName;
                  Printed
                    (Success (Some (Name (snd (Load_result lf e name)))))]
     |}).
Proof.
  intros H1 H2 -> H3 H4.
  unfold session, attached in *.
  unfold launch_experiment, try_except, Automation_new, set_auto,
    LightFieldApplication_Experiment, set_experiment, self_experiment, Load,
    get_Name, set_experiment_name.
  run. rewrite H1. simpl. rewrite H2. simpl.
  rewrite H3. simpl. rewrite H4. simpl. by rewrite <- !List.app_assoc.
Qed.

Lemma launch_last_experiment e :
  Automation_throws lf interface [] = None ->
  Application_Experiment lf (session interface) = inr e ->
  preset = None ->
  launch_experiment lf preset interface w =
    (Return tt,
     {| self := attached interface (experiment_name (self w)) w;
        lightfield := e;
        trace := trace w ++
                 [Called (CAutomation interface []);
                  Printed (Success (experiment_name (self w)))] |}).
Proof.
  intros H1 H2 ->.
  unfold session, attached in *.
  unfold launch_experiment, try_except, Automation_new, set_auto,
    LightFieldApplication_Experiment, set_experiment.
  run. rewrite H1. simpl. rewrite H2. simpl.
  by rewrite <- !List.app_assoc.
Qed.

(** Whatever the vendor does, the call returns. *)
Lemma launch_returns :
  exists w', launch_experiment lf preset interface w = (Return tt, w').
Proof.
  destruct (Automation_throws lf interface []) as [err|] eqn:H1.
  { rewrite (launch_startup_throws _ H1). by eexists. }
  destruct (Application_Experiment lf (session interface)) as [err|e] eqn:H2.
  { rewrite (launch_property_throws _ H1 H2). by eexists. }
  assert (Hp : preset = None \/ exists name, preset = Some name)
    by (destruct preset; eauto).
  destruct Hp as [Hp|[name Hp]].
  { rewrite (launch_last_experiment _ H1 H2 Hp). by eexists. }
  destruct (fst (Load_result lf e name)) as [err|] eqn:H3.
  { rewrite (launch_load_throws _ _ _ H1 H2 Hp H3). by eexists. }
  destruct (get_Name_throws lf (snd (Load_result lf e name)))
    as [err|] eqn:H4.
  { rewrite (launch_get_Name_throws _ _ _ H1 H2 Hp H3 H4). by eexists. }
  rewrite (launch_preset_loaded _ _ H1 H2 Hp H3 H4). by eexists.
Qed.
End LaunchProperties.

(** C7. [launch_experiment] returns normally whatever the vendor calls do.
    When one of them throws (the start of the runtime, the experiment
    property, [Load], [get_Name]) the exception is printed and the facade and
    the experiment object stay as the calls made so far left them: nothing
    set when the start failed; the session set and the experiment field as
    before when the property failed; session and experiment set, the name
    untouched and the experiment object as [Load] left it when the load
    failed.  When a preset is loaded, [experiment_name] becomes the name of
    the loaded experiment; without a preset it is left as it was. *)
Theorem launch_experiment_catches
    (lf : Vendor) (preset : option string) (interface : bool) (w : World) :
  (exists w', launch_experiment lf preset interface w = (Return tt, w')) /\
  (forall err,
     Automation_throws lf interface [] = Some err ->
     launch_experiment lf preset interface w =
       (Return tt,
        log [Called (CAutomation interface []); Printed (Err err)] w)) /\
  (forall err,
     Automation_throws lf interface [] = None ->
     Application_Experiment lf (mkAutomation interface []) = inl err ->
     launch_experiment lf preset interface w =
       (Return tt,
        {| self := {| auto := Some (mkAutomation interface []);
                      experiment := experiment (self w);
                      experiment_name := experiment_name (self w);
                      ROI := ROI (self w) |};
           lightfield := lightfield w;
           trace := trace w ++ [Called (CAutomation interface []);
                                Printed (Err err)] |})) /\
  (forall e name err,
     Automation_throws lf interface [] = None ->
     Application_Experiment lf (mkAutomation interface []) = inr e ->
     preset = Some name ->
     fst (Load_result lf e name) = Some err ->
     launch_experiment lf preset interface w =
       (Return tt,
        {| self := {| auto := Some (mkAutomation interface []);
                      experiment := Some ApplicationExperiment;
                      experiment_name := experiment_name (self w);
                      ROI := ROI (self w) |};
           lightfield := snd (Load_result lf e name);
           trace := trace w ++ [Called (CAutomation interface []);
                                Called (CLoad name);
                                Printed (Err err)] |})) /\
  (forall e name err,
     Automation_throws lf interface [] = None ->
     Application_Experiment lf (mkAutomation interface []) = inr e ->
     preset = Some name ->
     fst (Load_result lf e name) = None ->
     get_Name_throws lf (snd (Load_result lf e name)) = Some err ->
     launch_experiment lf preset interface w =
       (Return tt,
        {| self := {| auto := Some (mkAutomation interface []);
                      experiment := Some ApplicationExperiment;
                      experiment_name := experiment_name (self w);
                      ROI := ROI (self w) |};
           lightfield := snd (Load_result lf e name);
           trace := trace w ++ [Called (CAutomation interface []);
                                Called (CLoad name); Called CGetName;
                                Printed (Err err)] |})) /\
  (forall e name,
     Automation_throws lf interface [] = None ->
     Application_Experiment lf (mkAutomation interface []) = inr e ->
     preset = Some name ->
     fst (Load_result lf e name) = None ->
     get_Name_throws lf (snd (Load_result lf e name)) = None ->
     launch_experiment lf preset interface w =
       (Return tt,
        {| self := {| auto := Some (mkAutomation interface []);
                      experiment := Some ApplicationExperiment;
                      experiment_name :=
                        Some (Name (snd (Load_result lf e name)));
                      ROI := ROI (self w) |};
           lightfield := snd (Load_result lf e name);
           trace := trace w ++
                    [Called (CAutomation interface []);
                     Called (CLoad name); Called CGetName;
                     Printed
                       (Success (Some (Name (snd (Load_result lf e name)))))]
        |})) /\
  (forall e,
     Automation_throws lf interface [] = None ->
     Application_Experiment lf (mkAutomation interface []) = inr e ->
     preset = None ->
     launch_experiment lf preset interface w =
       (Return tt,
        {| self := {| auto := Some (mkAutomation interface []);
                      experiment := Some ApplicationExperiment;
                      experiment_name := experiment_name (self w);
                      ROI := ROI (self w) |};
           lightfield := e;
           trace := trace w ++
                    [Called (CAutomation interface []);
                     Printed (Success (experiment_name (self w)))] |})).
Proof.
  split; [apply launch_returns|].
  split; [apply launch_startup_throws|].
  split; [apply launch_property_throws|].
  split; [apply launch_load_throws|].
  split; [apply launch_get_Name_throws|].
  split; [apply launch_preset_loaded | apply launch_last_experiment].
Qed.

Lemma launch_experiment_catches_witness :
  (* the runtime does not start: the error is printed, nothing is set *)
  launch_experiment no_license_vendor (Some "night") true fresh_world =
    (Return tt,
     log [Called (CAutomation true []);
          Printed (Err (DotNetException "no license"))] fresh_world)
  /\
  (* an unknown preset: session and experiment are set, the name is not *)
  launch_experiment one_preset_vendor (Some "dusk") true fresh_world =
    (Return tt,
     {| self := {| auto := Some (mkAutomation true []);
                   experiment := Some ApplicationExperiment;
                   experiment_name := None;
                   ROI := None |};
        lightfield := demo_experiment;
        trace := [Called (CAutomation true []); Called (CLoad "dusk");
                  Printed (Err (DotNetException "experiment not found"))] |})
  /\
  (* a known preset: the name of the loaded experiment is stored *)
  experiment_name
    (self (snd (launch_experiment one_preset_vendor (Some "night") true
                  fresh_world))) = Some "night".
Proof.
  split; [|split].
  - apply (proj1 (proj2 (launch_experiment_catches no_license_vendor
                           (Some "night") true fresh_world))).
    reflexivity.
  - apply (proj1 (proj2 (proj2 (proj2
             (launch_experiment_catches one_preset_vendor (Some "dusk") true
                fresh_world))))
             demo_experiment "dusk" (DotNetException "experiment not found"));
      reflexivity.
  - rewrite (proj1 (proj2 (proj2 (proj2 (proj2 (proj2
               (launch_experiment_catches one_preset_vendor (Some "night") true
                  fresh_world))))))
               demo_experiment "night"); reflexivity.
Defined.

(** *** Conversion to float *)

Lemma digits2_pos_bounds m :
  2 ^ (Z.pos (digits2_pos m) - 1) <= Z.pos m < 2 ^ Z.pos (digits2_pos m).
Proof.
  induction m as [p IH|p IH|]; simpl digits2_pos.
  - rewrite Pos2Z.inj_succ.
    replace (Z.succ (Z.pos (digits2_pos p)) - 1) with
      (Z.succ (Z.pos (digits2_pos p) - 1)) by lia.
    rewrite !Z.pow_succ_r by lia. lia.
  - rewrite Pos2Z.inj_succ.
    replace (Z.succ (Z.pos (digits2_pos p)) - 1) with
      (Z.succ (Z.pos (digits2_pos p) - 1)) by lia.
    rewrite !Z.pow_succ_r by lia. lia.
  - simpl. lia.
Qed.

Lemma digits2_pos_iter_xO m p :
  digits2_pos (Pos.iter xO m p) = (digits2_pos m + p)%positive.
Proof.
  induction p as [|p IH] using Pos.peano_ind.
  - simpl. lia.
  - rewrite Pos.iter_succ. simpl. rewrite IH. lia.
Qed.

Lemma iter_xO_value m p : Z.pos (Pos.iter xO m p) = Z.pos m * 2 ^ Z.pos p.
Proof.
  induction p as [|p IH] using Pos.peano_ind.
  - simpl. lia.
  - rewrite Pos.iter_succ, Pos2Z.inj_succ, Z.pow_succ_r by lia.
    rewrite Pos2Z.inj_xO, IH. lia.
Qed.

Lemma binary_round_aux_canonical s mz ez :
  digits2_pos mz = 53%positive -> -1074 <= ez <= 971 ->
  binary_round_aux 53 1024 s (Z.pos mz) ez loc_Exact = S754_finite s mz ez.
Proof.
  intros Hd He.
  unfold binary_round_aux, shr_fexp, Zdigits2, fexp, emin.
  rewrite Hd.
  replace ((53 + ez - 53) `max` (3 - 1024 - 53) - ez) with 0 by lia.
  cbn [shr shr_record_of_loc shr_m loc_of_shr_record round_nearest_even].
  rewrite Hd.
  replace ((53 + ez - 53) `max` (3 - 1024 - 53) - ez) with 0 by lia.
  cbn [shr shr_record_of_loc shr_m].
  destruct (Z.leb_spec ez (1024 - 53)); [reflexivity | lia].
Qed.

Lemma float_of_int_exact z :
  - 2 ^ 53 <= z <= 2 ^ 53 ->
  exists f, float_of_int z = Return f /\ float_to_int f = Some z.
Proof.
  intros Hz. unfold float_of_int.
  assert (Hpos : forall s m, Z.pos m < 2 ^ 53 ->
            exists mz ez,
              binary_round 53 1024 s m 0 = S754_finite s mz ez /\
              float_to_int (S754_finite s mz ez) = Some (cond_Zopp s (Z.pos m))).
  { intros s m Hm.
    pose proof (digits2_pos_bounds m) as [Hlo Hhi].
    assert (Hd : Z.pos (digits2_pos m) <= 53).
    { destruct (Z.le_gt_cases (Z.pos (digits2_pos m)) 53) as [|Hgt]; [done|].
      assert (2 ^ 53 <= 2 ^ (Z.pos (digits2_pos m) - 1))
        by (apply Z.pow_le_mono_r; lia).
      lia. }
    unfold binary_round, fexp, emin.
    replace ((Z.pos (digits2_pos m) + 0 - 53) `max` (3 - 1024 - 53))
      with (Z.pos (digits2_pos m) - 53) by lia.
    unfold shl_align.
    destruct (Z.pos (digits2_pos m) - 53 - 0) as [|q|q] eqn:Eq; [|lia|].
    - exists m, 0.
      rewrite binary_round_aux_canonical by lia.
      split; [reflexivity|]. simpl. f_equal. f_equal. lia.
    - exists (Pos.iter xO m q), (Z.pos (digits2_pos m) - 53).
      rewrite binary_round_aux_canonical
        by (rewrite ?digits2_pos_iter_xO; lia).
      split; [reflexivity|].
      unfold float_to_int.
      destruct (Z.leb_spec 0 (Z.pos (digits2_pos m) - 53)) as [|_]; [lia|].
      replace (- (Z.pos (digits2_pos m) - 53)) with (Z.pos q) by lia.
      rewrite iter_xO_value.
      rewrite Z.mod_mul by lia. simpl (0 =? 0).  cbv iota.
      rewrite Z.div_mul by lia. reflexivity. }
  unfold binary_normalize.
  change (2 ^ 53) with 9007199254740992 in *.
  destruct z as [|m|m].
  - exists (S754_zero false). split; reflexivity.
  - destruct (Z.lt_ge_cases (Z.pos m) 9007199254740992) as [Hlt|Hge].
    + destruct (Hpos false m Hlt) as (mz & ez & -> & Hint).
      exists (S754_finite false mz ez). split; [reflexivity | exact Hint].
    + assert (m = 9007199254740992%positive) as -> by lia.
      eexists. split; vm_compute; reflexivity.
  - destruct (Z.lt_ge_cases (Z.pos m) 9007199254740992) as [Hlt|Hge].
    + destruct (Hpos true m Hlt) as (mz & ez & -> & Hint).
      exists (S754_finite true mz ez). split; [reflexivity | exact Hint].
    + assert (m = 9007199254740992%positive) as -> by lia.
      eexists. split; vm_compute; reflexivity.
Qed.

Example float_of_int_rounds :
  float_of_int (2 ^ 53 + 1) = Return (S754_finite false 4503599627370496 1) /\
  float_to_int (S754_finite false 4503599627370496 1) = Some (2 ^ 53).
Proof. split; vm_compute; reflexivity. Qed.

(** C10, as stated, at [mode = 2 ** 1024]: the conversion raises
    [OverflowError], nothing is forwarded to the setting. *)
Lemma set_sensor_mode_rejects_huge_int :
  set_sensor_mode (NInt (2 ^ 1024)) sensor_world =
    (Raise (OverflowError "int too large to convert to float"), sensor_world)
  /\
  ~ (exists f w',
       set_sensor_mode (NInt (2 ^ 1024)) sensor_world = (Return tt, w') /\
       settings (lightfield w') !! ReadoutControlRegionsOfInterestSelection =
         Some (PyFloat f)).
Proof.
  assert (E : set_sensor_mode (NInt (2 ^ 1024)) sensor_world =
              (Raise (OverflowError "int too large to convert to float"),
               sensor_world))
    by (vm_compute; reflexivity).
  split; [exact E|].
  intros (f & w' & H & _). rewrite E in H. discriminate.
Qed.

(** C10, amended.  [set_sensor_mode] converts its argument with [float] and
    hands the result to [set_value] for the ROI selection setting; it checks
    no range.  Whenever the conversion succeeds the float is forwarded, and
    on a launched facade where the setting exists it is stored; a float
    argument is forwarded as it is, an integer of magnitude at most 2^53 as
    the float of the same value.  When the conversion raises (an integer too
    large for a double) the exception propagates and nothing is done. *)
Theorem set_sensor_mode_forwards_float (mode : PyNum) (w : World) :
  (forall f,
     float_of mode = Return f ->
     set_sensor_mode mode w =
       set_value ReadoutControlRegionsOfInterestSelection (PyFloat f) w) /\
  (forall f ref,
     float_of mode = Return f ->
     experiment (self w) = Some ref ->
     is_Some (settings (lightfield w)
                !! ReadoutControlRegionsOfInterestSelection) ->
     exists w',
       set_sensor_mode mode w = (Return tt, w') /\
       settings (lightfield w') !! ReadoutControlRegionsOfInterestSelection =
         Some (PyFloat f)) /\
  (forall f, mode = NFloat f -> float_of mode = Return f) /\
  (forall z,
     mode = NInt z -> - 2 ^ 53 <= z <= 2 ^ 53 ->
     exists f, float_of mode = Return f /\ float_to_int f = Some z) /\
  (forall err,
     float_of mode = Raise err -> set_sensor_mode mode w = (Raise err, w)).
Proof.
  assert (Hfwd : forall f,
     float_of mode = Return f ->
     set_sensor_mode mode w =
       set_value ReadoutControlRegionsOfInterestSelection (PyFloat f) w).
  { intros f Hf. unfold set_sensor_mode, py_float. by rewrite Hf. }
  split; [exact Hfwd|]. split; [|split; [|split]].
  - intros f ref Hf Hex Hkey. rewrite (Hfwd f Hf).
    rewrite (set_value_launched _ _ _ _ Hex).
    eexists. split; [reflexivity|]. simpl.
    by apply lookup_write_if_exists_eq.
  - by intros f ->.
  - intros z -> Hz. by apply float_of_int_exact.
  - intros err Herr. unfold set_sensor_mode, py_float. by rewrite Herr.
Qed.

Lemma set_sensor_mode_forwards_float_witness :
  exists w',
    set_sensor_mode (NInt 7) sensor_world = (Return tt, w') /\
    settings (lightfield w') !! ReadoutControlRegionsOfInterestSelection =
      Some (PyFloat (S754_finite false 7881299347898368 (-50))).
Proof.
  apply (proj1 (proj2 (set_sensor_mode_forwards_float (NInt 7) sensor_world))
           (S754_finite false 7881299347898368 (-50)) ApplicationExperiment).
  - vm_compute. reflexivity.
  - reflexivity.
  - vm_compute. eexists. reflexivity.
Defined.

(** ** Further properties of the facade *)

(** *** What a sequence of guarded writes can and cannot change *)

Lemma call_setter_shape c :
  (exists ws, forall w, call_setter c w = writes ws w) \/
  (exists err, forall w, call_setter c w = (Raise err, w)).
Proof.
  destruct c as [v|g|t|f i d t|m]; simpl.
  - left. exists [(GratingCenterWavelength, v)]. intros w. by rewrite writes_one.
  - unfold set_grating. destruct (g =? 0); [|destruct (g =? 2)].
    + left. eexists [(_, _)]. intros w. by rewrite writes_one.
    + left. eexists [(_, _)]. intros w. by rewrite writes_one.
    + left. by exists [].
  - unfold set_exposure_time, py_float. destruct (float_of t) as [f|e].
    + left. eexists [(_, _)]. intros w. by rewrite writes_one.
    + right. by exists e.
  - left. exists (filename_writes f i d t). intros w.
    apply set_saved_filename_as_writes.
  - unfold set_sensor_mode, py_float. destruct (float_of m) as [f|e].
    + left. eexists [(_, _)]. intros w. by rewrite writes_one.
    + right. by exists e.
Qed.

(** Either nothing happened, or the facade is launched and every write was
    attempted. *)
Lemma writes_world ws w :
  snd (writes ws w) = w \/
  snd (writes ws w) =
    {| self := self w;
       lightfield :=
         with_settings (write_all ws (settings (lightfield w))) (lightfield w);
       trace := trace w ++ report_all ws (settings (lightfield w)) |}.
Proof.
  destruct (experiment (self w)) as [ref|] eqn:H.
  - right. by rewrite (writes_launched _ _ _ H).
  - left. destruct ws as [|[k v] ws]; [reflexivity|].
    by rewrite (writes_unlaunched _ _ _ _ H).
Qed.

Lemma is_Some_write_if_exists k v k' (m : gmap Setting PyValue) :
  is_Some (write_if_exists k v m !! k') <-> is_Some (m !! k').
Proof.
  destruct (decide (k = k')) as [<-|Hne].
  - unfold write_if_exists. case_bool_decide as Hk; [|reflexivity].
    split; [by intros _ | intros _; exists v; apply lookup_insert_eq].
  - by rewrite lookup_write_if_exists_ne.
Qed.

Lemma is_Some_write_all ws : forall k' (m : gmap Setting PyValue),
  is_Some (write_all ws m !! k') <-> is_Some (m !! k').
Proof.
  induction ws as [|[k v] ws IH]; intros k' m; simpl; [reflexivity|].
  by rewrite IH, is_Some_write_if_exists.
Qed.

Lemma write_if_exists_twice k v1 v2 (m : gmap Setting PyValue) :
  write_if_exists k v2 (write_if_exists k v1 m) = write_if_exists k v2 m.
Proof.
  unfold write_if_exists.
  destruct (decide (is_Some (m !! k))) as [Hk|Hk].
  - rewrite (bool_decide_eq_true_2 _ Hk).
    rewrite bool_decide_eq_true_2 by (exists v1; apply lookup_insert_eq).
    apply insert_insert_eq.
  - rewrite (bool_decide_eq_false_2 _ Hk).
    by rewrite (bool_decide_eq_false_2 _ Hk).
Qed.

(** X1. Before any launch the field [experiment] is [None]: the guarded
    write, the setters that reach it, [acquire], [get_full_sensor_size] and
    [save_experiment] raise the [AttributeError] of a lookup on [None], and
    neither the facade nor the experiment nor the trace changes. *)
Theorem unlaunched_calls_raise (w : World) :
  experiment (self w) = None ->
  (forall k v,
     set_value k v w = (Raise (AttributeError "NoneType" "Exists"), w)) /\
  (forall v,
     set_center_wavelength v w =
       (Raise (AttributeError "NoneType" "Exists"), w)) /\
  (forall f i d t,
     set_saved_filename f i d t w =
       (Raise (AttributeError "NoneType" "Exists"), w)) /\
  (forall f,
     acquire f w = (Raise (AttributeError "NoneType" "Exists"), w)) /\
  get_full_sensor_size w =
    (Raise (AttributeError "NoneType" "FullSensorRegion"), w) /\
  save_experiment None w = (Raise (AttributeError "NoneType" "SaveAs"), w).
Proof.
  intros H.
  split; [intros k v; by apply set_value_unlaunched|].
  split; [intros v; by apply set_value_unlaunched|].
  split.
  { intros f i d t. rewrite set_saved_filename_as_writes.
    by apply writes_unlaunched. }
  split; [intros f; by apply acquire_unlaunched|].
  split.
  - unfold get_full_sensor_size. unfold bind at 1.
    by rewrite (self_experiment_None _ _ H).
  - unfold save_experiment. unfold bind at 1. unfold ret at 1.
    unfold bind at 1. by rewrite (self_experiment_None _ _ H).
Qed.

Lemma unlaunched_calls_raise_witness :
  acquire "run2" fresh_world =
    (Raise (AttributeError "NoneType" "Exists"), fresh_world) /\
  get_full_sensor_size fresh_world =
    (Raise (AttributeError "NoneType" "FullSensorRegion"), fresh_world).
Proof.
  destruct (unlaunched_calls_raise fresh_world eq_refl)
    as (_ & _ & _ & Hacq & Hsize & _).
  split; [apply Hacq | exact Hsize].
Defined.

(** X2. A domain setter can only change the value of settings that already
    exist: it never adds or removes a key, and it leaves the fields of the
    facade, the name of the experiment and its regions as they were. *)
Theorem setters_only_update_existing (c : DomainSetter) (w : World) :
  self (snd (call_setter c w)) = self w /\
  Name (lightfield (snd (call_setter c w))) = Name (lightfield w) /\
  FullSensorRegion (lightfield (snd (call_setter c w))) =
    FullSensorRegion (lightfield w) /\
  CustomRegions (lightfield (snd (call_setter c w))) =
    CustomRegions (lightfield w) /\
  (forall k,
     is_Some (settings (lightfield (snd (call_setter c w))) !! k) <->
     is_Some (settings (lightfield w) !! k)).
Proof.
  destruct (call_setter_shape c) as [[ws H]|[err H]]; rewrite H; simpl.
  - destruct (writes_world ws w) as [->| ->]; simpl.
    + repeat split; auto.
    + repeat split; try reflexivity; intros Hk;
        by apply (is_Some_write_all ws k (settings (lightfield w))).
  - repeat split; auto.
Qed.

(** X3. The last write wins: writing a setting twice leaves the facade and
    the experiment as the second write alone does, with the same outcome
    (both return, or both raise before a launch). *)
Theorem set_value_last_write_wins
    (k : Setting) (v1 v2 : PyValue) (w : World) :
  fst ((set_value k v1 ;;; set_value k v2) w) = fst (set_value k v2 w) /\
  self (snd ((set_value k v1 ;;; set_value k v2) w)) =
    self (snd (set_value k v2 w)) /\
  lightfield (snd ((set_value k v1 ;;; set_value k v2) w)) =
    lightfield (snd (set_value k v2 w)).
Proof.
  destruct (experiment (self w)) as [ref|] eqn:H.
  - unfold bind. rewrite (set_value_launched k v1 w ref H).
    rewrite (set_value_launched k v2 _ ref) by exact H.
    rewrite (set_value_launched k v2 w ref H). simpl.
    repeat split. unfold with_settings. simpl.
    by rewrite write_if_exists_twice.
  - unfold bind. by rewrite !(set_value_unlaunched _ _ _ H).
Qed.

Lemma filter_selects_900_report k v (m : gmap Setting PyValue) :
  selects_900 (Called (CSetValue k v)) = false ->
  List.filter selects_900 (report k v m) = [].
Proof.
  intros H. unfold report. destruct (bool_decide _); [|reflexivity].
  cbn [List.filter]. by rewrite H.
Qed.

(** X4. [set_grating] never selects the second grating: whatever the code
    passed, no write of the descriptor '[550nm,900][1][0]' is added to the
    trace (the branch that holds it repeats the test of the first one). *)
Theorem set_grating_never_selects_900 (g : Z) (w : World) :
  List.filter selects_900 (trace (snd (set_grating g w))) =
  List.filter selects_900 (trace w).
Proof.
  assert (Hw : forall v, selects_900 (Called (CSetValue Grating v)) = false ->
            List.filter selects_900 (trace (snd (set_value Grating v w))) =
            List.filter selects_900 (trace w)).
  { intros v Hv. destruct (experiment (self w)) as [ref|] eqn:H.
    - rewrite (set_value_launched _ _ _ _ H). simpl.
      by rewrite List.filter_app, filter_selects_900_report, app_nil_r.
    - by rewrite (set_value_unlaunched _ _ _ H). }
  unfold set_grating. destruct (g =? 0); [by apply Hw|].
  destruct (g =? 2); [by apply Hw | reflexivity].
Qed.

(** *** Exposure time *)

(** X5. [set_exposure_time] converts its argument with [float] first: when
    the conversion raises (an integer too large for a double) the exception
    propagates and nothing is done; otherwise the float goes through the
    guarded write, and for an integer of magnitude at most 2^53 on a launched
    facade where the setting exists, the stored float denotes that very
    integer. *)
Theorem set_exposure_time_converts (time : PyNum) (w : World) :
  (forall err,
     float_of time = Raise err -> set_exposure_time time w = (Raise err, w)) /\
  (forall f,
     float_of time = Return f ->
     set_exposure_time time w =
       set_value ShutterTimingExposureTime (PyFloat f) w) /\
  (forall z ref,
     time = NInt z -> - 2 ^ 53 <= z <= 2 ^ 53 ->
     experiment (self w) = Some ref ->
     is_Some (settings (lightfield w) !! ShutterTimingExposureTime) ->
     exists f w',
       set_exposure_time time w = (Return tt, w') /\
       settings (lightfield w') !! ShutterTimingExposureTime =
         Some (PyFloat f) /\
       float_to_int f = Some z).
Proof.
  assert (Hfwd : forall f,
     float_of time = Return f ->
     set_exposure_time time w =
       set_value ShutterTimingExposureTime (PyFloat f) w).
  { intros f Hf. unfold set_exposure_time, py_float. by rewrite Hf. }
  split; [|split; [exact Hfwd|]].
  - intros err Herr. unfold set_exposure_time, py_float. by rewrite Herr.
  - intros z ref -> Hz Hex Hkey.
    destruct (float_of_int_exact z Hz) as (f & Hf & Hint).
    exists f. eexists. rewrite (Hfwd f Hf).
    rewrite (set_value_launched _ _ _ _ Hex).
    split; [reflexivity|]. split; [|exact Hint]. simpl.
    by apply lookup_write_if_exists_eq.
Qed.

Lemma set_exposure_time_converts_witness :
  exists f w',
    set_exposure_time (NInt 20) exposure_world = (Return tt, w') /\
    settings (lightfield w') !! ShutterTimingExposureTime = Some (PyFloat f) /\
    float_to_int f = Some 20.
Proof.
  apply (proj2 (proj2 (set_exposure_time_converts (NInt 20) exposure_world))
           20 ApplicationExperiment eq_refl).
  - vm_compute. split; discriminate.
  - reflexivity.
  - vm_compute. eexists. reflexivity.
Defined.

(** *** Acquisition and the file name settings *)

Lemma acquire_launched filename w ref :
  experiment (self w) = Some ref ->
  acquire filename w =
    (Return tt,
     {| self := self w;
        lightfield :=
          with_settings
            (write_all (filename_writes filename false false false)
               (settings (lightfield w)))
            (lightfield w);
        trace :=
          (trace w ++
           report_all (filename_writes filename false false false)
             (settings (lightfield w))) ++ [Called CAcquire] |}).
Proof.
  intros Hex. unfold acquire, set_saved_filename_default.
  unfold bind at 1. rewrite set_saved_filename_as_writes.
  rewrite (writes_launched _ _ ref Hex).
  unfold bind at 1. rewrite (self_experiment_Some _ _ ref) by exact Hex.
  reflexivity.
Qed.

Lemma filename_writes_lookup f i d t (m : gmap Setting PyValue) :
  (is_Some (m !! FileNameGenerationBaseFileName) ->
   write_all (filename_writes f i d t) m !! FileNameGenerationBaseFileName =
     Some (PyStr (GetFileName f))) /\
  (is_Some (m !! FileNameGenerationAttachIncrement) ->
   write_all (filename_writes f i d t) m !! FileNameGenerationAttachIncrement =
     Some (PyBool i)) /\
  (is_Some (m !! FileNameGenerationAttachDate) ->
   write_all (filename_writes f i d t) m !! FileNameGenerationAttachDate =
     Some (PyBool d)) /\
  (is_Some (m !! FileNameGenerationAttachTime) ->
   write_all (filename_writes f i d t) m !! FileNameGenerationAttachTime =
     Some (PyBool t)).
Proof.
  simpl. repeat split; intros H;
    rewrite ?lookup_write_if_exists_ne by discriminate;
    apply lookup_write_if_exists_eq;
    by rewrite ?is_Some_write_if_exists.
Qed.

Lemma filename_writes_other f i d t k (m : gmap Setting PyValue) :
  is_filename_key k = false ->
  write_all (filename_writes f i d t) m !! k = m !! k.
Proof.
  intros H. simpl.
  rewrite !lookup_write_if_exists_ne by (intros <-; discriminate).
  reflexivity.
Qed.

(** X6. [acquire] overrides the file name options: on a launched facade,
    whatever flags an earlier [set_saved_filename] stored, after [acquire]
    each of the increment, date and time flags that exists is [False] and the
    base name, when it exists, is the base name of the file acquired. *)
Theorem acquire_resets_flags
    (f g : string) (i d t : bool) (w : World) (ref : ExperimentRef) :
  experiment (self w) = Some ref ->
  (is_Some (settings (lightfield w) !! FileNameGenerationBaseFileName) ->
   settings (lightfield (snd ((set_saved_filename f i d t ;;; acquire g) w)))
     !! FileNameGenerationBaseFileName = Some (PyStr (GetFileName g))) /\
  (is_Some (settings (lightfield w) !! FileNameGenerationAttachIncrement) ->
   settings (lightfield (snd ((set_saved_filename f i d t ;;; acquire g) w)))
     !! FileNameGenerationAttachIncrement = Some (PyBool false)) /\
  (is_Some (settings (lightfield w) !! FileNameGenerationAttachDate) ->
   settings (lightfield (snd ((set_saved_filename f i d t ;;; acquire g) w)))
     !! FileNameGenerationAttachDate = Some (PyBool false)) /\
  (is_Some (settings (lightfield w) !! FileNameGenerationAttachTime) ->
   settings (lightfield (snd ((set_saved_filename f i d t ;;; acquire g) w)))
     !! FileNameGenerationAttachTime = Some (PyBool false)).
Proof.
  intros Hex.
  assert (E : settings (lightfield
                (snd ((set_saved_filename f i d t ;;; acquire g) w))) =
              write_all (filename_writes g false false false)
                (write_all (filename_writes f i d t)
                   (settings (lightfield w)))).
  { unfold bind at 1.
    rewrite set_saved_filename_as_writes, (writes_launched _ _ ref Hex).
    by rewrite (acquire_launched g _ ref) by exact Hex. }
  rewrite E.
  destruct (filename_writes_lookup g false false false
              (write_all (filename_writes f i d t) (settings (lightfield w))))
    as (Hb & Hi & Hd & Ht).
  repeat split; intros H; [apply Hb|apply Hi|apply Hd|apply Ht];
    by apply is_Some_write_all.
Qed.

Lemma acquire_resets_flags_witness :
  settings
    (lightfield
       (snd ((set_saved_filename "dark" true true true ;;; acquire "run2")
               saving_world)))
    !! FileNameGenerationAttachIncrement = Some (PyBool false).
Proof.
  apply (proj1 (proj2 (acquire_resets_flags "dark" "run2" true true true
                         saving_world ApplicationExperiment eq_refl))).
  vm_compute. eexists. reflexivity.
Defined.

(** X7. [acquire] touches nothing but the four file name settings: every
    other setting keeps its value, no key appears or disappears, and the
    fields of the facade, the name of the experiment and its regions are
    unchanged, launched or not. *)
Theorem acquire_touches_filename_settings_only (filename : string) (w : World) :
  self (snd (acquire filename w)) = self w /\
  Name (lightfield (snd (acquire filename w))) = Name (lightfield w) /\
  FullSensorRegion (lightfield (snd (acquire filename w))) =
    FullSensorRegion (lightfield w) /\
  CustomRegions (lightfield (snd (acquire filename w))) =
    CustomRegions (lightfield w) /\
  (forall k,
     is_filename_key k = false ->
     settings (lightfield (snd (acquire filename w))) !! k =
     settings (lightfield w) !! k) /\
  (forall k,
     is_Some (settings (lightfield (snd (acquire filename w))) !! k) <->
     is_Some (settings (lightfield w) !! k)).
Proof.
  destruct (experiment (self w)) as [ref|] eqn:Hex.
  - rewrite (acquire_launched _ _ ref Hex). simpl snd.
    cbn [self lightfield settings Name FullSensorRegion CustomRegions
         with_settings].
    do 4 (split; [reflexivity|]). split.
    + intros k Hk.
      by apply (filename_writes_other filename false false false).
    + intros k.
      apply (is_Some_write_all (filename_writes filename false false false)).
  - rewrite (acquire_unlaunched _ _ Hex). simpl. repeat split; auto.
Qed.

Lemma acquire_touches_filename_settings_only_witness :
  settings (lightfield (snd (acquire "run2" demo_world))) !! Grating =
  settings (lightfield demo_world) !! Grating.
Proof.
  apply (proj1 (proj2 (proj2 (proj2 (proj2
           (acquire_touches_filename_settings_only "run2" demo_world)))))).
  reflexivity.
Defined.

(** *** Saving before a launch *)

(** X8. On a facade that was never launched [save_experiment] raises the
    [AttributeError] of the lookup of [SaveAs] on [None] and calls nothing;
    when a name was given, the name has been stored all the same. *)
Theorem save_experiment_unlaunched (name : option string) (w : World) :
  experiment (self w) = None ->
  save_experiment name w =
    (Raise (AttributeError "NoneType" "SaveAs"),
     {| self := match name with
                | Some n => with_name (Some n) (self w)
                | None => self w
                end;
        lightfield := lightfield w;
        trace := trace w |}).
Proof.
  intros H.
  unfold save_experiment, set_experiment_name, self_experiment, with_name.
  run. destruct name; simpl; rewrite H; [reflexivity|].
  by destruct w.
Qed.

Lemma save_experiment_unlaunched_witness :
  save_experiment (Some "night") fresh_world =
    (Raise (AttributeError "NoneType" "SaveAs"),
     {| self := with_name (Some "night") init;
        lightfield := demo_experiment;
        trace := [] |}).
Proof.
  apply (save_experiment_unlaunched (Some "night") fresh_world).
  reflexivity.
Defined.

(** *** Directories in file names *)

Lemma has_separator_after_last path :
  has_separator path = false -> after_last_separator path = None.
Proof.
  induction path as [|c rest IH]; simpl; [reflexivity|].
  intros H. apply orb_false_iff in H as [Hc Hrest].
  by rewrite (IH Hrest), Hc.
Qed.

Lemma GetFileName_directory dir c name :
  is_separator c = true -> has_separator name = false ->
  GetFileName (dir ++ String c name)%string = name.
Proof.
  intros Hc Hname. unfold GetFileName.
  assert (H : after_last_separator (dir ++ String c name)%string = Some name).
  { induction dir as [|a dir IH].
    - change (after_last_separator (String c name) = Some name). simpl.
      by rewrite (has_separator_after_last _ Hname), Hc.
    - change (after_last_separator (String a (dir ++ String c name)%string)
              = Some name).
      simpl. by rewrite IH. }
  by rewrite H.
Qed.

Lemma GetFileName_plain name :
  has_separator name = false -> GetFileName name = name.
Proof.
  intros H. unfold GetFileName. by rewrite (has_separator_after_last _ H).
Qed.

(** X9. The directory of a file name is dropped: a name made of any prefix,
    a separator (backslash, slash or colon) and a last component without
    separator is treated by [set_saved_filename] and by [acquire] exactly as
    the last component alone; in particular a name that ends in a separator
    is treated as the empty name. *)
Theorem set_saved_filename_ignores_directory
    (dir name : string) (c : ascii) (i d t : bool) (w : World) :
  is_separator c = true ->
  has_separator name = false ->
  set_saved_filename (dir ++ String c name)%string i d t w =
    set_saved_filename name i d t w /\
  acquire (dir ++ String c name)%string w = acquire name w.
Proof.
  intros Hc Hname.
  unfold acquire, set_saved_filename_default, set_saved_filename.
  by rewrite (GetFileName_directory _ _ _ Hc Hname),
             (GetFileName_plain _ Hname).
Qed.

Lemma set_saved_filename_ignores_directory_witness :
  acquire "C:\data\run1" saving_world = acquire "run1" saving_world /\
  acquire "C:\data\" saving_world = acquire "" saving_world.
Proof.
  split.
  - apply (set_saved_filename_ignores_directory "C:\data" "run1" "\"
             false false false saving_world); reflexivity.
  - apply (set_saved_filename_ignores_directory "C:\data" "" "\"
             false false false saving_world); reflexivity.
Defined.

(** *** Sessions *)












(** A short session on a fresh facade: a launch whose preset is unknown,
    then some settings and an acquisition. *)
Example evening_session :
  run_calls [Launch one_preset_vendor (Some "dusk") true;
             Setter (SetGrating 0);
             AcquireTo "C:\data\run1";
             SetCustomROI (Some 0) (Some 0) (Some 512) (Some 512) None None;
             Disconnect] fresh_world =
  {| self := {| auto := Some (mkAutomation true []);
                experiment := Some ApplicationExperiment;
                experiment_name := None;
                ROI := None |};
     lightfield :=
       with_settings
         {[ Grating := PyStr "[Mirror,1200][0][0]";
            FileNameGenerationBaseFileName := PyStr "run1" ]}
         demo_experiment;
     trace :=
       [ Called (CAutomation true []); Called (CLoad "dusk");
         Printed (Err (DotNetException "experiment not found"));
         Called (CExists Grating true);
         Called (CSetValue Grating (PyStr "[Mirror,1200][0][0]"));
         Printed (SetTo Grating (PyStr "[Mirror,1200][0][0]"));
         Called (CExists FileNameGenerationBaseFileName true);
         Called (CSetValue FileNameGenerationBaseFileName (PyStr "run1"));
         Printed (SetTo FileNameGenerationBaseFileName (PyStr "run1"));
         Called (CExists FileNameGenerationAttachIncrement false);
         Printed (ErrorInSetting FileNameGenerationAttachIncrement
                    (PyBool false));
         Called (CExists FileNameGenerationAttachDate false);
         Printed (ErrorInSetting FileNameGenerationAttachDate (PyBool false));
         Called (CExists FileNameGenerationAttachTime false);
         Printed (ErrorInSetting FileNameGenerationAttachTime (PyBool false));
         Called CAcquire;
         Called (CTaskkill "AddInProcess.exe");
         Printed Disconnected ] |}.
Proof. vm_compute. reflexivity. Qed.










(** X15. A launch makes the facade usable as soon as the runtime started
    and handed out its experiment, whether or not the preset could then be
    loaded: later guarded writes return instead of raising.  When the
    runtime did not start on a facade without experiment, they keep raising
    the [AttributeError]. *)
Theorem launch_then_set_value
    (lf : Vendor) (preset : option string) (interface : bool) (w : World)
    (k : Setting) (v : PyValue) :
  (forall e,
     Automation_throws lf interface [] = None ->
     Application_Experiment lf (mkAutomation interface []) = inr e ->
     fst (set_value k v (snd (launch_experiment lf preset interface w))) =
       Return tt) /\
  (forall err,
     Automation_throws lf interface [] = Some err ->
     experiment (self w) = None ->
     fst (set_value k v (snd (launch_experiment lf preset interface w))) =
       Raise (AttributeError "NoneType" "Exists")).
Proof.
  split.
  - intros e H1 H2.
    assert (Hex : experiment
                    (self (snd (launch_experiment lf preset interface w))) =
                  Some ApplicationExperiment).
    { destruct preset as [name|].
      2: { by rewrite (launch_last_experiment _ _ _ _ _ H1 H2 eq_refl). }
      destruct (fst (Load_result lf e name)) as [err|] eqn:H3.
      { by rewrite (launch_load_throws _ _ _ _ _ _ _ H1 H2 eq_refl H3). }
      destruct (get_Name_throws lf (snd (Load_result lf e name)))
        as [err|] eqn:H4.
      { by rewrite (launch_get_Name_throws _ _ _ _ _ _ _ H1 H2 eq_refl H3 H4). }
      by rewrite (launch_preset_loaded _ _ _ _ _ _ H1 H2 eq_refl H3 H4). }
    by rewrite (set_value_launched _ _ _ _ Hex).
  - intros err H1 Hex.
    rewrite (launch_startup_throws _ _ _ _ _ H1).
    by rewrite set_value_unlaunched.
Qed.

Lemma launch_then_set_value_witness :
  fst (set_value Grating (PyStr "[Mirror,1200][0][0]")
         (snd (launch_experiment one_preset_vendor (Some "dusk") true
                 fresh_world))) = Return tt /\
  fst (set_value Grating (PyStr "[Mirror,1200][0][0]")
         (snd (launch_experiment no_license_vendor (Some "night") true
                 fresh_world))) = Raise (AttributeError "NoneType" "Exists").
Proof.
  split.
  - apply (proj1 (launch_then_set_value one_preset_vendor (Some "dusk") true
                    fresh_world Grating (PyStr "[Mirror,1200][0][0]"))
             demo_experiment); reflexivity.
  - apply (proj2 (launch_then_set_value no_license_vendor (Some "night") true
                    fresh_world Grating (PyStr "[Mirror,1200][0][0]"))
             (DotNetException "no license")); reflexivity.
Defined.

(** *** The guarded write, class wide *)


(** In a checked trace a [SetValue] never stands alone. *)
Lemma checked_SetValue evs :
  checked evs ->
  forall pre k v post,
    evs = pre ++ Called (CSetValue k v) :: post ->
    (exists pre', pre = pre' ++ [Called (CExists k true)]) /\
    (exists post', post = Printed (SetTo k v) :: post').
Proof.
  induction 1 as [|k0 v0 evs H IH|ev evs Hev H IH]; intros pre k v post E.
  - destruct pre; discriminate.
  - destruct pre as [|a [|b [|c pre]]]; simplify_eq/=.
    + split; [by exists [] | by eexists].
    + destruct (IH _ _ _ _ eq_refl) as [[pre' ->] Hpost].
      split; [|exact Hpost].
      by exists (Called (CExists k0 true) :: Called (CSetValue k0 v0)
                 :: Printed (SetTo k0 v0) :: pre').
  - destruct pre as [|a pre]; simplify_eq/=.
    destruct (IH _ _ _ _ eq_refl) as [[pre' ->] Hpost].
    split; [|exact Hpost]. by eexists (_ :: pre').
Qed.


Lemma launch_trace lf preset interface w :
  exists evs,
    trace (snd (launch_experiment lf preset interface w)) =
      trace w ++ Called (CAutomation interface []) :: evs /\
    List.filter is_CAutomation evs = [] /\
    List.filter is_SetValue evs = [].
Proof.
  destruct (Automation_throws lf interface []) as [err|] eqn:H1.
  { rewrite (launch_startup_throws _ _ _ _ _ H1). by eexists. }
  destruct (Application_Experiment lf (session interface)) as [err|e] eqn:H2.
  { rewrite (launch_property_throws _ _ _ _ _ H1 H2). by eexists. }
  destruct preset as [name|].
  2: { rewrite (launch_last_experiment _ _ _ _ _ H1 H2 eq_refl). by eexists. }
  destruct (fst (Load_result lf e name)) as [err|] eqn:H3.
  { rewrite (launch_load_throws _ _ _ _ _ _ _ H1 H2 eq_refl H3). by eexists. }
  destruct (get_Name_throws lf (snd (Load_result lf e name)))
    as [err|] eqn:H4.
  { rewrite (launch_get_Name_throws _ _ _ _ _ _ _ H1 H2 eq_refl H3 H4).
    by eexists. }
  rewrite (launch_preset_loaded _ _ _ _ _ _ H1 H2 eq_refl H3 H4). by eexists.
Qed.




(** X17. Every call of [launch_experiment] starts a new runtime: the first
    thing it does is one call of the constructor [Automation] with the given
    interface flag and an empty argument list, also when the facade already
    holds a session, and it calls the constructor only once. *)
Theorem launch_always_starts_runtime
    (lf : Vendor) (preset : option string) (interface : bool) (w : World) :
  exists evs,
    trace (snd (launch_experiment lf preset interface w)) =
      trace w ++ Called (CAutomation interface []) :: evs /\
    List.filter is_CAutomation evs = [].
Proof.
  destruct (launch_trace lf preset interface w) as (evs & H & Ha & _).
  by exists evs.
Qed.
